(** * Automated-ML notebook: a shallow embedding and its properties

    The repository is one Jupyter notebook, [src/automated-ml/automated-ml.ipynb].
    Its code cells are embedded here in the order in which "Run All" executes
    them: an exception raised in a cell stops the run, and later cells are
    not executed.

    The notebook is glue around pandas, scikit-learn, NumPy and the Azure ML
    SDK.  None of that code belongs to the repository, so the libraries are
    taken as interfaces (type classes) whose operations may raise; only the
    small part of pandas and of [train_test_split] that the claims speak
    about is modelled concretely, and each such model says so.  The import
    statements of cell 1 are not modelled. *)

From Stdlib Require Import ZArith QArith Qround Lia Ascii String.
From stdpp Require Import base option list strings pretty gmap.

Local Open Scope string_scope.
Local Open Scope list_scope.

(** ** Python values, exceptions and results *)

(** Scalars that occur as dataframe cells, metric values and dict values.
    A float is carried as its binary64 bit pattern; no float arithmetic is
    done in the notebook itself. *)
Inductive pyval :=
| PNone
| PInt (z : Z)
| PFloat (bits : Z)
| PStr (s : string).

#[global] Instance pyval_eq_dec : EqDecision pyval.
Proof. solve_decision. Defined.

(** Exceptions.  [Raised] stands for any class other than the three the
    models below raise themselves. *)
Inductive exn :=
| KeyError (msg : string)
| ValueError (msg : string)
| TypeError (msg : string)
| Raised (cls msg : string).

#[global] Instance exn_eq_dec : EqDecision exn.
Proof. solve_decision. Defined.

Inductive result (A : Type) :=
| Ok (a : A)
| Err (e : exn).
Arguments Ok {A} a.
Arguments Err {A} e.

Definition is_ok {A} (r : result A) : bool :=
  match r with Ok _ => true | Err _ => false end.

Definition result_map {A B} (f : A -> B) (r : result A) : result B :=
  match r with Ok a => Ok (f a) | Err e => Err e end.

(** A Python [dict]: insertion-ordered items.  Iterating a dict yields its
    keys in this order. *)
Definition pydict := list (string * pyval).

Definition dict_keys (d : pydict) : list string := d.*1.

Fixpoint dict_getitem (d : pydict) (k : string) : result pyval :=
  match d with
  | [] => Err (KeyError k)
  | (k', v) :: d' => if decide (k' = k) then Ok v else dict_getitem d' k
  end.

(** ** pandas: the part of [DataFrame] the notebook uses *)

(** A row carries its index label and its cells, one per column. *)
Definition row := (Z * list pyval)%type.

Record DataFrame := mkDataFrame {
  columns : list string;
  rows : list row
}.

Record Series := mkSeries {
  s_name : string;
  s_data : list (Z * pyval)
}.

#[global] Instance DataFrame_eq_dec : EqDecision DataFrame.
Proof. solve_decision. Defined.
#[global] Instance Series_eq_dec : EqDecision Series.
Proof. solve_decision. Defined.

(** Objects that live on the Python heap and are passed by reference. *)
Inductive obj :=
| ODataFrame (d : DataFrame)
| OSeries (s : Series)
| OArray (a : list pyval).

#[global] Instance obj_eq_dec : EqDecision obj.
Proof. solve_decision. Defined.

(** Positions of the columns labelled [k]. *)
Fixpoint positions_from (i : nat) (cols : list string) (k : string) : list nat :=
  match cols with
  | [] => []
  | c :: cols' =>
      if decide (c = k) then i :: positions_from (S i) cols' k
      else positions_from (S i) cols' k
  end.

Definition positions (cols : list string) (k : string) : list nat :=
  positions_from 0 cols k.

Definition cell_at (p : nat) (cells : list pyval) : pyval := nth p cells PNone.

(** Keep the entries of [l] whose mask bit is set. *)
Fixpoint select {A} (mask : list bool) (l : list A) : list A :=
  match mask, l with
  | b :: mask', x :: l' => if b then x :: select mask' l' else select mask' l'
  | _, _ => []
  end.

Definition keep_columns (mask : list bool) (d : DataFrame) : DataFrame :=
  {| columns := select mask (columns d);
     rows := map (fun r : row => (r.1, select mask r.2)) (rows d) |}.

(** Modelled from the spec: pandas' [DataFrame.__getitem__] with a string
    key is library code absent from the repository.  A missing label raises
    [KeyError]; a label carried by one column gives that column as a new
    [Series]; a label carried by several columns gives a new [DataFrame] of
    those columns.  The receiver is not modified. *)
Definition df_getitem (d : DataFrame) (k : string) : result obj :=
  match positions (columns d) k with
  | [] => Err (KeyError k)
  | [p] => Ok (OSeries {| s_name := k;
                          s_data := map (fun r : row => (r.1, cell_at p r.2)) (rows d) |})
  | _ => Ok (ODataFrame (keep_columns (map (fun c => bool_decide (c = k)) (columns d)) d))
  end.

Definition quote (s : string) : string := "'" +:+ s +:+ "'".

Fixpoint join (sep : string) (l : list string) : string :=
  match l with
  | [] => EmptyString
  | [s] => s
  | s :: l' => s +:+ sep +:+ join sep l'
  end.

(** Modelled from the spec: pandas' [DataFrame.drop(labels, axis=1)] with
    the defaults [inplace=False, errors='raise'] is library code absent from
    the repository.  A label that names no column raises [KeyError];
    otherwise the result is a new [DataFrame] without the columns so
    labelled.  The receiver is not modified. *)
Definition df_drop (d : DataFrame) (labels : list string) : result DataFrame :=
  match filter (fun l => l ∉ columns d) labels with
  | [] => Ok (keep_columns (map (fun c => bool_decide (c ∉ labels)) (columns d)) d)
  | missing =>
      Err (KeyError ("[" +:+ join ", " (map quote missing) +:+ "] not found in axis"))
  end.

(** Modelled from the spec: positional row selection as [df.iloc[ind]]
    does it in pandas, a new frame with the rows at the given positions, in
    the given order, under the same columns. *)
Definition df_take (d : DataFrame) (ind : list nat) : DataFrame :=
  {| columns := columns d;
     rows := omap (fun i => rows d !! i) ind |}.

(** ** Handles and records of the Azure ML SDK *)

Definition loc := positive.

Record Workspace := mkWorkspace {
  ws_name : string;
  ws_resource_group : string;
  ws_location : string;
  ws_subscription_id : string
}.

Inductive Experiment := ExperimentRef (id : nat).
Inductive Run := RunRef (id : nat).
Inductive Model := ModelRef (id : nat).

(** The keyword arguments of [AutoMLConfig(...)].  The two data arguments
    are references to dataframe objects. *)
Record AutoMLConfig := mkAutoMLConfig {
  name : string;
  task : string;
  training_data : loc;
  validation_data : loc;
  label_column_name : string;
  iterations : Z;
  primary_metric : string;
  max_concurrent_iterations : Z;
  featurization : string;
  model_explainability : bool
}.

#[global] Instance Workspace_eq_dec : EqDecision Workspace.
Proof. solve_decision. Defined.
#[global] Instance Experiment_eq_dec : EqDecision Experiment.
Proof. solve_decision. Defined.
#[global] Instance Run_eq_dec : EqDecision Run.
Proof. solve_decision. Defined.
#[global] Instance Model_eq_dec : EqDecision Model.
Proof. solve_decision. Defined.
#[global] Instance AutoMLConfig_eq_dec : EqDecision AutoMLConfig.
Proof. solve_decision. Defined.

(** ** Library interfaces *)

(** Python's built-in formatting of a value inside an f-string. *)
Class Builtins := {
  py_format : pyval -> string
}.

(** [numpy.random]: generator states, seeding, and [permutation n], which
    returns a permutation of [0 .. n-1] and advances the generator. *)
Class NumpyRandom := {
  rng_state : Type;
  RandomState : Z -> rng_state;
  rng_permutation : rng_state -> nat -> list nat * rng_state;
  rng_permutation_perm : forall s n, (rng_permutation s n).1 ≡ₚ seq 0 n
}.

(** scikit-learn: the four metric functions, and [predict] of a fitted
    estimator.  A metric reads its two arguments and may raise.  [predict]
    reads its argument, may modify it in place (the second component is the
    argument's content afterwards) and may raise. *)
Class Sklearn := {
  roc_auc_score : obj -> obj -> result pyval;
  accuracy_score : obj -> obj -> result pyval;
  recall_score : obj -> obj -> result pyval;
  f1_score : obj -> obj -> result pyval;
  predict : Model -> obj -> result (list pyval) * obj
}.

(** Everything outside the Python process: the file system read by
    [pd.read_csv] and the workspace service reached through the Azure ML
    SDK.  Each operation may change the outside state and may raise.
    [submit] reads the local heap (the dataframes named in the
    configuration); none of these operations writes to it. *)
Class Outside := {
  ext : Type;
  read_csv : string -> ext -> result DataFrame * ext;
  Workspace_from_config : string -> ext -> result Workspace * ext;
  AutoMLConfig_init : AutoMLConfig -> ext -> result unit * ext;
  Experiment_init : Workspace -> string -> ext -> result Experiment * ext;
  submit : Experiment -> AutoMLConfig -> gmap loc obj -> ext -> result Run * ext;
  wait_for_completion : Run -> bool -> ext -> result unit * ext;
  RunDetails_show : Run -> ext -> result unit * ext;
  get_output : Run -> ext -> result (Run * Model) * ext;
  get_metrics : Run -> ext -> result pydict * ext;
  get_metrics_keys : forall r e, match (get_metrics r e).1 with
                                 | Ok d => NoDup (dict_keys d)
                                 | Err _ => True
                                 end
}.

(** ** The call history

    Orderings ("this call before that one") are stated on the history of
    library calls of a run.  The history is ghost state: every library call
    appends its entry, and the program never reads it. *)

(** One constructor per library operation the notebook invokes, with its
    arguments. *)
Inductive call :=
| c_filterwarnings (action : string)
| c_Workspace_from_config (path : string)
| c_read_csv (path : string)
| c_train_test_split (df : loc) (test_size : Q) (random_state : option Z)
| c_AutoMLConfig (cfg : AutoMLConfig)
| c_Experiment (ws : Workspace) (nm : string)
| c_submit (exp : Experiment) (cfg : AutoMLConfig)
| c_wait_for_completion (run : Run) (show_output : bool)
| c_RunDetails_show (run : Run)
| c_get_output (run : Run)
| c_get_metrics (run : Run)
| c_getitem (df : loc) (key : string)
| c_drop (df : loc) (labels : list string)
| c_predict (m : Model) (X : loc)
| c_roc_auc_score (y_true y_pred : loc)
| c_accuracy_score (y_true y_pred : loc)
| c_recall_score (y_true y_pred : loc)
| c_f1_score (y_true y_pred : loc)
| c_print (text : string).

(** What a call returned. *)
Inductive retval :=
| r_None
| r_ref (l : loc)
| r_refs (l1 l2 : loc)
| r_workspace (ws : Workspace)
| r_experiment (exp : Experiment)
| r_run (run : Run)
| r_output (best_run : Run) (fitted_model : Model)
| r_dict (d : pydict)
| r_value (v : pyval).

(** A history entry: the call and its outcome. *)
Abbreviation entry := (call * result retval)%type.

Section Notebook.
Context {BI : Builtins} {NR : NumpyRandom} {SK : Sklearn} {OUT : Outside}.

(** ** Program state *)

Record World := mkWorld {
  heap : gmap loc obj;        (* Python objects, by identity *)
  np_random : rng_state;      (* NumPy's global generator *)
  outside : ext;              (* file system and workspace service *)
  trace : list entry;         (* calls made so far, oldest first *)
  stdout : list string        (* text written by [print], one item per call *)
}.

Definition set_heap (h : gmap loc obj) (w : World) : World :=
  mkWorld h (np_random w) (outside w) (trace w) (stdout w).
Definition set_np_random (s : rng_state) (w : World) : World :=
  mkWorld (heap w) s (outside w) (trace w) (stdout w).
Definition set_outside (e : ext) (w : World) : World :=
  mkWorld (heap w) (np_random w) e (trace w) (stdout w).
Definition log (en : entry) (w : World) : World :=
  mkWorld (heap w) (np_random w) (outside w) (trace w ++ [en]) (stdout w).
Definition write (s : string) (w : World) : World :=
  mkWorld (heap w) (np_random w) (outside w) (trace w) (stdout w ++ [s]).

(** Computations: state passing with exceptions.  An exception keeps the
    state reached when it was raised. *)
Definition M (A : Type) : Type := World -> result A * World.

#[local] Instance M_ret : MRet M := fun A a w => (Ok a, w).
#[local] Instance M_bind : MBind M := fun A B f m w =>
  match m w with
  | (Ok a, w') => f a w'
  | (Err e, w') => (Err e, w')
  end.

(** Run a library operation and record the call with its outcome. *)
Definition invoke {A} (c : call) (ret : A -> retval) (op : World -> result A * World) : M A :=
  fun w => let '(r, w') := op w in (r, log (c, result_map ret r) w').

(** An operation on the outside state only. *)
Definition outside_op {A} (f : ext -> result A * ext) : World -> result A * World :=
  fun w => let '(r, e') := f (outside w) in (r, set_outside e' w).

(** Object creation: the new object's identity differs from that of every
    object on the heap. *)
Definition alloc (o : obj) (w : World) : loc * World :=
  let l := fresh (dom (heap w)) in (l, set_heap (<[l := o]> (heap w)) w).


(** ** Library calls as computations *)

Definition not_a_frame : exn := TypeError "not a DataFrame".

(** [pd.read_csv(path)]: the parsed file as a new dataframe object. *)
Definition pd_read_csv (path : string) : M loc :=
  invoke (c_read_csv path) r_ref (fun w =>
    match outside_op (read_csv path) w with
    | (Ok d, w') => let '(l, w'') := alloc (ODataFrame d) w' in (Ok l, w'')
    | (Err e, w') => (Err e, w')
    end).

(** [df[key]] on the object at [df]: the selection is a new object.  Only
    dataframe receivers are modelled; any other receiver raises. *)
Definition getitem (df : loc) (key : string) : M loc :=
  invoke (c_getitem df key) r_ref (fun w =>
    match heap w !! df with
    | Some (ODataFrame d) =>
        match df_getitem d key with
        | Ok o => let '(l, w') := alloc o w in (Ok l, w')
        | Err e => (Err e, w)
        end
    | _ => (Err not_a_frame, w)
    end).

(** [df.drop(labels, axis=1)] on the object at [df]: the result is a new
    dataframe object. *)
Definition drop_columns (df : loc) (labels : list string) : M loc :=
  invoke (c_drop df labels) r_ref (fun w =>
    match heap w !! df with
    | Some (ODataFrame d) =>
        match df_drop d labels with
        | Ok d' => let '(l, w') := alloc (ODataFrame d') w in (Ok l, w')
        | Err e => (Err e, w)
        end
    | _ => (Err not_a_frame, w)
    end).

(** [m.predict(X)]: the estimator works on the object at [X], which it may
    modify in place, and returns a new array. *)
Definition model_predict (m : Model) (X : loc) : M loc :=
  invoke (c_predict m X) r_ref (fun w =>
    match heap w !! X with
    | Some o =>
        let '(r, o') := predict m o in
        let w1 := set_heap (<[X := o']> (heap w)) w in
        match r with
        | Ok a => let '(l, w2) := alloc (OArray a) w1 in (Ok l, w2)
        | Err e => (Err e, w1)
        end
    | None => (Err not_a_frame, w)
    end).

(** A metric function applied to the objects at [y_true] and [y_pred]. *)
Definition metric (c : loc -> loc -> call) (f : obj -> obj -> result pyval)
    (y_true y_pred : loc) : M pyval :=
  invoke (c y_true y_pred) r_value (fun w =>
    match heap w !! y_true, heap w !! y_pred with
    | Some a, Some b => (f a b, w)
    | _, _ => (Err not_a_frame, w)
    end).

Definition nl : string := String "010"%char EmptyString.

(** [print(args, sep=sep)]: one write of the joined arguments and the
    line end. *)
Definition print (args : list string) (sep : string) : M unit :=
  invoke (c_print (join sep args +:+ nl)) (fun _ => r_None) (fun w =>
    (Ok tt, write (join sep args +:+ nl) w)).

(** [for x in l: body(x)] *)
Fixpoint for_each {A} (l : list A) (body : A -> M unit) : M unit :=
  match l with
  | [] => mret tt
  | x :: l' => body x ≫= fun _ => for_each l' body
  end.

(** [d[k]] on a dict held in a variable. *)
Definition subscript (d : pydict) (k : string) : M pyval :=
  fun w => (dict_getitem d k, w).

(** ** scikit-learn: [train_test_split] *)

(** Modelled from the spec: [sklearn.model_selection.train_test_split] is
    library code absent from the repository.  This follows its documented
    behaviour for one array, a float [test_size], no [train_size],
    [shuffle=True] and no stratification:
    - [test_size] must lie strictly between 0 and 1;
    - the test set gets [ceil(test_size * n)] of the [n] rows and the train
      set the other rows; an empty train set is refused with [ValueError];
    - the rows are dealt out along a permutation of [0 .. n-1] drawn from
      [RandomState(seed)] when [random_state] is an integer seed, and from
      NumPy's global generator when it is [None]: the first [n_test]
      positions go to the test set, the next [n_train] to the train set.
    The product [test_size * n] is taken exactly; for 0.7 the binary64
    product has the same ceiling for every row count below 2^49.  The
    texts of the error messages are shortened. *)
Definition validate_shuffle_split (n_samples : nat) (test_size : Q) : result (nat * nat) :=
  if Qle_bool test_size 0 || Qle_bool 1 test_size then
    Err (ValueError "test_size should be a float in the (0, 1) range")
  else
    let n_test := Z.to_nat (Qceiling (test_size * inject_Z (Z.of_nat n_samples))) in
    let n_train := (n_samples - n_test)%nat in
    if decide (n_train = 0%nat) then
      Err (ValueError "the resulting train set will be empty")
    else Ok (n_train, n_test).

(** Modelled from the spec: [check_random_state(seed).permutation(n)] of
    scikit-learn and NumPy.  An integer seed makes a new generator, which
    leaves the global one untouched; [None] draws from the global generator
    and advances it. *)
Definition draw_permutation (random_state : option Z) (n : nat) (w : World) : list nat * World :=
  match random_state with
  | Some seed => ((rng_permutation (RandomState seed) n).1, w)
  | None =>
      let '(p, s') := rng_permutation (np_random w) n in (p, set_np_random s' w)
  end.

(** Modelled from the spec: [train_test_split(df, test_size=...,
    random_state=...)] on the dataframe object at [df], as described above.
    The two frames returned are new objects, train first; [df] is only
    read.  Only a dataframe argument is modelled. *)
Definition train_test_split (df : loc) (test_size : Q) (random_state : option Z)
    : M (loc * loc) :=
  invoke (c_train_test_split df test_size random_state)
         (fun p : loc * loc => r_refs p.1 p.2) (fun w =>
    match heap w !! df with
    | Some (ODataFrame d) =>
        match validate_shuffle_split (length (rows d)) test_size with
        | Ok (n_train, n_test) =>
            let '(perm, w1) := draw_permutation random_state (length (rows d)) w in
            let ind_test := take n_test perm in
            let ind_train := take n_train (drop n_test perm) in
            let '(train, w2) := alloc (ODataFrame (df_take d ind_train)) w1 in
            let '(test, w3) := alloc (ODataFrame (df_take d ind_test)) w2 in
            (Ok (train, test), w3)
        | Err e => (Err e, w)
        end
    | _ => (Err not_a_frame, w)
    end).

(** ** The notebook *)

(** Cell 7: [def test_model(fitted_model, test_ds)] *)
Definition test_model (fitted_model : Model) (test_ds : loc) : M pydict :=
  y ← getitem test_ds "target";
  X ← drop_columns test_ds ["target"];
  y_pred ← model_predict fitted_model X;
  auc ← metric c_roc_auc_score roc_auc_score y y_pred;
  acc ← metric c_accuracy_score accuracy_score y y_pred;
  rec ← metric c_recall_score recall_score y y_pred;
  f1 ← metric c_f1_score f1_score y y_pred;
  mret [("AUC", auc); ("Accuracy", acc); ("Recall", rec); ("F1", f1)].

Definition SPLIT_SEED : Z := 42.
Definition SPLIT_PERCENTAGE : Q := 7 # 10.
Definition DATASET_PATH : string := "../../dataset/uci_dataset.csv".

(** Cell 4: the configuration object. *)
Definition automl_config (train_ds test_ds : loc) : AutoMLConfig :=
  {| name := "Automated ML Experiment";
     task := "classification";
     training_data := train_ds;
     validation_data := test_ds;
     label_column_name := "target";
     iterations := 3;
     primary_metric := "AUC_weighted";
     max_concurrent_iterations := 3;
     featurization := "auto";
     model_explainability := true |}.

(** Cell 9: the two print loops. *)
Definition print_metrics (best_run_metrics local_metrics : pydict) : M unit :=
  print ["AutoML metrics"] " ";;
  for_each (dict_keys best_run_metrics) (fun metric_name =>
    v ← subscript best_run_metrics metric_name;
    print [metric_name +:+ ": " +:+ py_format v] " ");;
  print [nl +:+ "Local test metrics"] " ";;
  for_each (dict_keys local_metrics) (fun local_metric =>
    v ← subscript local_metrics local_metric;
    print [local_metric +:+ ": " +:+ py_format v] " ").

(** The variables the notebook has bound when it ends. *)
Record Globals := mkGlobals {
  g_ws : Workspace;
  g_df : loc;
  g_train_ds : loc;
  g_test_ds : loc;
  g_automl_config : AutoMLConfig;
  g_automl_experiment : Experiment;
  g_automl_run : Run;
  g_best_run : Run;
  g_fitted_model : Model;
  g_best_run_metrics : pydict;
  g_local_metrics : pydict
}.

(** All code cells, top to bottom. *)
Definition notebook : M Globals :=
  (* cell 1 *)
  invoke (c_filterwarnings "ignore") (fun _ => r_None) (fun w => (Ok tt, w));;
  (* cell 2 *)
  ws ← invoke (c_Workspace_from_config "../notebooks-settings/config.json") r_workspace
         (outside_op (Workspace_from_config "../notebooks-settings/config.json"));
  print [ws_name ws; ws_resource_group ws; ws_location ws; ws_subscription_id ws] nl;;
  (* cell 3 *)
  df ← pd_read_csv DATASET_PATH;
  '(train_ds, test_ds) ← train_test_split df SPLIT_PERCENTAGE (Some SPLIT_SEED);
  (* cell 4 *)
  let cfg := automl_config train_ds test_ds in
  invoke (c_AutoMLConfig cfg) (fun _ => r_None) (outside_op (AutoMLConfig_init cfg));;
  (* cell 5 *)
  automl_experiment ← invoke (c_Experiment ws "automl-classification") r_experiment
         (outside_op (Experiment_init ws "automl-classification"));
  automl_run ← invoke (c_submit automl_experiment cfg) r_run
         (fun w => outside_op (submit automl_experiment cfg (heap w)) w);
  invoke (c_wait_for_completion automl_run true) (fun _ => r_None)
         (outside_op (wait_for_completion automl_run true));;
  invoke (c_RunDetails_show automl_run) (fun _ => r_None)
         (outside_op (RunDetails_show automl_run));;
  (* cell 6 *)
  '(best_run, fitted_model) ← invoke (c_get_output automl_run)
         (fun p : Run * Model => r_output p.1 p.2)
         (outside_op (get_output automl_run));
  best_run_metrics ← invoke (c_get_metrics best_run) r_dict
         (outside_op (get_metrics best_run));
  (* cell 8 *)
  local_metrics ← test_model fitted_model test_ds;
  (* cell 9 *)
  print_metrics best_run_metrics local_metrics;;
  mret (mkGlobals ws df train_ds test_ds cfg automl_experiment automl_run
                  best_run fitted_model best_run_metrics local_metrics).

(** "Restart and Run All": the notebook started on an empty heap, with
    nothing printed and no call made yet. *)
Definition run_all (s : rng_state) (e : ext) : result Globals * World :=
  notebook (mkWorld ∅ s e [] []).

(** ** The history of a complete run *)

Definition print_entry (text : string) : entry := (c_print text, Ok r_None).

(** The text an entry wrote to standard output, if it is a [print]. *)
Definition printed (en : entry) : option string :=
  match en.1 with c_print text => Some text | _ => None end.

(** The line printed for one item of a metrics dict. *)
Definition metric_line (kv : string * pyval) : string :=
  (kv.1 +:+ ": " +:+ py_format kv.2) +:+ nl.

Definition local_metrics_dict (auc acc rec f1 : pyval) : pydict :=
  [("AUC", auc); ("Accuracy", acc); ("Recall", rec); ("F1", f1)].

(** The calls of [test_model] when none of them raises: [y], [X] and
    [y_pred] are the objects it creates, and the four values are what the
    metric functions return. *)
Definition test_model_script (fitted_model : Model) (test_ds y X y_pred : loc)
    (auc acc rec f1 : pyval) : list entry :=
  [ (c_getitem test_ds "target", Ok (r_ref y));
    (c_drop test_ds ["target"], Ok (r_ref X));
    (c_predict fitted_model X, Ok (r_ref y_pred));
    (c_roc_auc_score y y_pred, Ok (r_value auc));
    (c_accuracy_score y y_pred, Ok (r_value acc));
    (c_recall_score y y_pred, Ok (r_value rec));
    (c_f1_score y y_pred, Ok (r_value f1)) ].

Definition print_metrics_script (best_run_metrics local_metrics : pydict) : list entry :=
  print_entry ("AutoML metrics" +:+ nl)
  :: map (fun kv => print_entry (metric_line kv)) best_run_metrics
  ++ print_entry (nl +:+ "Local test metrics" +:+ nl)
  :: map (fun kv => print_entry (metric_line kv)) local_metrics.

(** The calls of the notebook's set-up cells (1 to 6) when none raises. *)
Definition setup_script (g : Globals) : list entry :=
  [ (c_filterwarnings "ignore", Ok r_None);
    (c_Workspace_from_config "../notebooks-settings/config.json", Ok (r_workspace (g_ws g)));
    print_entry (join nl [ws_name (g_ws g); ws_resource_group (g_ws g);
                          ws_location (g_ws g); ws_subscription_id (g_ws g)] +:+ nl);
    (c_read_csv DATASET_PATH, Ok (r_ref (g_df g)));
    (c_train_test_split (g_df g) SPLIT_PERCENTAGE (Some SPLIT_SEED),
       Ok (r_refs (g_train_ds g) (g_test_ds g)));
    (c_AutoMLConfig (automl_config (g_train_ds g) (g_test_ds g)), Ok r_None);
    (c_Experiment (g_ws g) "automl-classification", Ok (r_experiment (g_automl_experiment g)));
    (c_submit (g_automl_experiment g) (automl_config (g_train_ds g) (g_test_ds g)),
       Ok (r_run (g_automl_run g)));
    (c_wait_for_completion (g_automl_run g) true, Ok r_None);
    (c_RunDetails_show (g_automl_run g), Ok r_None);
    (c_get_output (g_automl_run g), Ok (r_output (g_best_run g) (g_fitted_model g)));
    (c_get_metrics (g_best_run g), Ok (r_dict (g_best_run_metrics g))) ].

(** The whole history of a run in which no call raises. *)
Definition script (g : Globals) (y X y_pred : loc) (auc acc rec f1 : pyval) : list entry :=
  setup_script g
  ++ test_model_script (g_fitted_model g) (g_test_ds g) y X y_pred auc acc rec f1
  ++ print_metrics_script (g_best_run_metrics g) (local_metrics_dict auc acc rec f1).

(** ** Notions used to state the properties *)

(** [silent op]: the operation itself touches neither the history nor the
    standard output. *)
Definition silent {A} (op : World -> result A * World) : Prop :=
  forall w, trace (op w).2 = trace w /\ stdout (op w).2 = stdout w.

(** [adds m c ret]: running [m] appends exactly one entry, for the call [c]
    with the outcome of [m], and writes what that entry printed. *)
Definition adds {A} (m : M A) (c : call) (ret : A -> retval) : Prop :=
  forall w, trace (m w).2 = trace w ++ [(c, result_map ret (m w).1)]
            /\ stdout (m w).2 = stdout w ++ omap printed [(c, result_map ret (m w).1)].

(** [stopped scr ex new]: the history [new] follows the script [scr] up to
    some call, and that call raised [ex]. *)
Definition stopped (scr : list entry) (ex : exn) (new : list entry) : Prop :=
  exists k c r0, scr !! k = Some (c, r0) /\ new = take k scr ++ [(c, Err ex)].

(** The outcome of [test_model] written on dataframe contents. *)
Definition test_model_outcome (m : Model) (d : DataFrame) : result pydict :=
  match df_getitem d "target" with
  | Err e => Err e
  | Ok y =>
      match df_drop d ["target"] with
      | Err e => Err e
      | Ok X =>
          match (predict m (ODataFrame X)).1 with
          | Err e => Err e
          | Ok y_pred =>
              match roc_auc_score y (OArray y_pred) with
              | Err e => Err e
              | Ok auc =>
                  match accuracy_score y (OArray y_pred) with
                  | Err e => Err e
                  | Ok acc =>
                      match recall_score y (OArray y_pred) with
                      | Err e => Err e
                      | Ok rec =>
                          match f1_score y (OArray y_pred) with
                          | Err e => Err e
                          | Ok f1 => Ok (local_metrics_dict auc acc rec f1)
                          end
                      end
                  end
              end
          end
      end
  end.

(** C1 as the specification words it: [test_model] returns a mapping with
    exactly the keys 'AUC', 'Accuracy', 'Recall' and 'F1'. *)
Definition returns_the_four_metrics (m : Model) (test_ds : loc) (w : World) : Prop :=
  exists auc acc rec f1,
    (test_model m test_ds w).1
    = Ok [("AUC", auc); ("Accuracy", acc); ("Recall", rec); ("F1", f1)].

(** The contents of the two frames a split returned. *)
Definition split_contents (r : result (loc * loc) * World) : result (option obj * option obj) :=
  match r with
  | (Ok (train, test), w) => Ok (heap w !! train, heap w !! test)
  | (Err e, _) => Err e
  end.

(** The two frames [train_test_split] builds from the content of a
    dataframe when a seed is given. *)
Definition split_frames (d : DataFrame) (test_size : Q) (seed : Z) : result (DataFrame * DataFrame) :=
  match validate_shuffle_split (length (rows d)) test_size with
  | Ok (n_train, n_test) =>
      let perm := (rng_permutation (RandomState seed) (length (rows d))).1 in
      Ok (df_take d (take n_train (drop n_test perm)), df_take d (take n_test perm))
  | Err e => Err e
  end.

(** C2 as the specification words it: the split returns two frames whose
    rows together are the rows of [d], the test frame holding exactly seven
    tenths of them and the train frame exactly three tenths. *)
Definition splits_in_exact_proportion (w : World) (df : loc) (d : DataFrame) : Prop :=
  exists train test w' d_train d_test,
    train_test_split df SPLIT_PERCENTAGE (Some SPLIT_SEED) w = (Ok (train, test), w')
    /\ heap w' !! train = Some (ODataFrame d_train)
    /\ heap w' !! test = Some (ODataFrame d_test)
    /\ rows d_test ++ rows d_train ≡ₚ rows d
    /\ (10 * length (rows d_test) = 7 * length (rows d))%nat
    /\ (10 * length (rows d_train) = 3 * length (rows d))%nat.


(** ** Notions used for the further properties *)

(** A [print] entry is in order when the call returned. *)
Definition print_ok (en : entry) : Prop :=
  forall text, en.1 = c_print text -> en.2 = Ok r_None.

(** [quiet w w']: between [w] and [w'] nothing was printed, the outside
    and NumPy's global generator are as they were, and no [print] entry
    that raised was added to the history. *)
Definition quiet (w w' : World) : Prop :=
  outside w' = outside w
  /\ np_random w' = np_random w
  /\ stdout w' = stdout w
  /\ (Forall print_ok (trace w) -> Forall print_ok (trace w')).

(** [tidy w w']: between [w] and [w'] NumPy's global generator was not
    used and no [print] call raised. *)
Definition tidy (w w' : World) : Prop :=
  np_random w' = np_random w
  /\ (Forall print_ok (trace w) -> Forall print_ok (trace w')).

(** [keeps R m]: every execution of [m] relates the state before to the
    state after by [R]. *)
Definition keeps {A} (R : World -> World -> Prop) (m : M A) : Prop :=
  forall w, R w (m w).2.


(** The text cell 2 prints for a workspace: its name, resource group,
    location and subscription id, one per line. *)
Definition workspace_line (ws : Workspace) : string :=
  join nl [ws_name ws; ws_resource_group ws; ws_location ws; ws_subscription_id ws] +:+ nl.


(** [reads_only w w']: between [w] and [w'] the heap did not change and
    the history only grew. *)
Definition reads_only (w w' : World) : Prop :=
  heap w' = heap w /\ exists rest, trace w' = trace w ++ rest.

(** [grows w w']: between [w] and [w'] the history only grew. *)
Definition grows (w w' : World) : Prop :=
  exists rest, trace w' = trace w ++ rest.

End Notebook.

#[global] Arguments alloc : simpl never.

(** ** A small concrete setting

    One instance of each library interface, a five-row dataset and a
    three-row dataset, on which the notebook can be evaluated. *)

Definition toy_format (v : pyval) : string :=
  match v with
  | PNone => "None"
  | PInt z => pretty z
  | PFloat bits => "float:" +:+ pretty bits
  | PStr s => s
  end.

Definition toy_builtins : Builtins := {| py_format := toy_format |}.

(** A generator whose state is a counter: an even state deals the rows
    out backwards, an odd one forwards. *)
Definition toy_permutation (s : Z) (n : nat) : list nat * Z :=
  (if Z.even s then rev (seq 0 n) else seq 0 n, (s + 1)%Z).

Definition toy_rng : NumpyRandom :=
  {| rng_state := Z;
     RandomState := fun seed => seed;
     rng_permutation := toy_permutation;
     rng_permutation_perm := fun s n =>
       match Z.even s as b
         return (if b then rev (seq 0 n) else seq 0 n) ≡ₚ seq 0 n with
       | true => Permutation_sym (Permutation_rev (seq 0 n))
       | false => Permutation_refl (seq 0 n)
       end |}.

Definition labels_of (o : obj) : list pyval :=
  match o with
  | OSeries s => (s_data s).*2
  | OArray a => a
  | ODataFrame d => []
  end.

Definition count_equal (a b : list pyval) : Z :=
  Z.of_nat (length (filter (fun p : pyval * pyval => p.1 = p.2) (zip a b))).

(** Metrics that count: agreements for the area under the curve and the
    accuracy, true labels for the recall, predictions plus one for F1; the
    area under the curve is refused when the true labels are all the same.
    The estimator 0 predicts 1 for every row and empties the frame it was
    given; no other estimator is fitted. *)
Definition toy_sklearn : Sklearn :=
  {| roc_auc_score := fun y_true y_pred =>
       match labels_of y_true with
       | v :: vs =>
           if bool_decide (Forall (fun v' => v' = v) vs)
           then Err (ValueError "Only one class present in y_true")
           else Ok (PInt (count_equal (labels_of y_true) (labels_of y_pred)))
       | [] => Err (ValueError "Only one class present in y_true")
       end;
     accuracy_score := fun y_true y_pred =>
       Ok (PInt (count_equal (labels_of y_true) (labels_of y_pred)));
     recall_score := fun y_true y_pred =>
       Ok (PInt (Z.of_nat (length (labels_of y_true))));
     f1_score := fun y_true y_pred =>
       Ok (PInt (Z.of_nat (length (labels_of y_pred)) + 1));
     predict := fun m X =>
       match m, X with
       | ModelRef 0, ODataFrame d =>
           (Ok (map (fun _ => PInt 1) (rows d)),
            ODataFrame {| columns := columns d; rows := [] |})
       | _, _ => (Err (Raised "NotFittedError" "no such model"), X)
       end |}.

(** The outside is the content of the dataset file, if the file exists;
    the workspace service accepts every request. *)
Definition toy_outside : Outside :=
  {| ext := option DataFrame;
     read_csv := fun path e =>
       match e with
       | Some d => (Ok d, e)
       | None => (Err (Raised "FileNotFoundError" path), e)
       end;
     Workspace_from_config := fun _ e => (Ok (mkWorkspace "ws" "rg" "westeurope" "sub"), e);
     AutoMLConfig_init := fun _ e => (Ok tt, e);
     Experiment_init := fun _ _ e => (Ok (ExperimentRef 0), e);
     submit := fun _ _ _ e => (Ok (RunRef 0), e);
     wait_for_completion := fun _ _ e => (Ok tt, e);
     RunDetails_show := fun _ e => (Ok tt, e);
     get_output := fun _ e => (Ok (RunRef 1, ModelRef 0), e);
     get_metrics := fun _ e => (Ok [("AUC_weighted", PInt 9); ("accuracy", PInt 8)], e);
     get_metrics_keys := fun _ _ =>
       bool_decide_unpack (NoDup ["AUC_weighted"; "accuracy"]) I |}.

Definition toy_df : DataFrame :=
  {| columns := ["age"; "target"];
     rows := [ (0%Z, [PInt 63; PInt 1]); (1%Z, [PInt 37; PInt 0]);
               (2%Z, [PInt 41; PInt 0]); (3%Z, [PInt 56; PInt 1]);
               (4%Z, [PInt 57; PInt 0]) ] |}.

Definition toy_df3 : DataFrame :=
  {| columns := ["age"; "target"];
     rows := [ (0%Z, [PInt 63; PInt 1]); (1%Z, [PInt 37; PInt 0]);
               (2%Z, [PInt 41; PInt 0]) ] |}.

Definition toy_one_class : DataFrame :=
  {| columns := ["age"; "target"];
     rows := [ (0%Z, [PInt 63; PInt 1]); (1%Z, [PInt 37; PInt 1]) ] |}.

Definition toy_unlabelled : DataFrame :=
  {| columns := ["age"];
     rows := [ (0%Z, [PInt 63]); (1%Z, [PInt 37]) ] |}.

(** A world holding one dataframe, at location 1, with the generator in
    state [s]. *)
Definition toy_world (d : DataFrame) (s : Z) : @World toy_rng toy_outside :=
  @mkWorld toy_rng toy_outside {[ 1%positive := ODataFrame d ]}
           (s : @rng_state toy_rng) (None : @ext toy_outside) [] [].

(** Initial states of a run: the generator, and the outside with and
    without the dataset file. *)
Definition toy_state : @rng_state toy_rng := 0%Z.
Definition toy_file : @ext toy_outside := Some toy_df.
Definition toy_no_file : @ext toy_outside := None.

(** The variables at the end of a run on the five-row dataset. *)
Definition toy_globals : Globals :=
  Eval vm_compute in
    match (@run_all toy_builtins toy_rng toy_sklearn toy_outside toy_state toy_file).1 with
    | Ok g => g
    | Err _ =>
        mkGlobals (mkWorkspace "ws" "rg" "westeurope" "sub") 1%positive 1%positive 1%positive
                  (automl_config 1%positive 1%positive) (ExperimentRef 0) (RunRef 0)
                  (RunRef 0) (ModelRef 0) [] []
    end.

(** * Properties *)

Section Properties.
Context {BI : Builtins} {NR : NumpyRandom} {SK : Sklearn} {OUT : Outside}.
#[local] Existing Instances M_ret M_bind.

Lemma bind_run {A B} (m : M A) (f : A -> M B) (w : World) :
  (m ≫= f) w = match m w with (Ok a, w') => f a w' | (Err e, w') => (Err e, w') end.
Proof. reflexivity. Qed.

Lemma alloc_fresh o w : heap w !! (alloc o w).1 = None.
Proof. unfold alloc. simpl. apply not_elem_of_dom, is_fresh. Qed.

Lemma alloc_heap o w : heap (alloc o w).2 = <[(alloc o w).1 := o]> (heap w).
Proof. reflexivity. Qed.

Lemma alloc_keeps o w l o' : heap w !! l = Some o' -> heap (alloc o w).2 !! l = Some o'.
Proof.
  intros Hl. rewrite alloc_heap. rewrite lookup_insert_ne; [done|].
  intros <-. rewrite alloc_fresh in Hl. discriminate.
Qed.

Lemma alloc_new o w : heap (alloc o w).2 !! (alloc o w).1 = Some o.
Proof. rewrite alloc_heap. apply lookup_insert_eq. Qed.

(** *** What one library call adds to the history and to standard output *)

Lemma invoke_adds {A} c (ret : A -> retval) op :
  silent op -> (forall t, c <> c_print t) -> adds (invoke c ret op) c ret.
Proof.
  intros Hs Hc w. unfold invoke. destruct (Hs w) as [Ht Ho].
  destruct (op w) as [r w']. simpl in *. rewrite Ht, Ho. split; [done|].
  unfold printed. simpl. destruct c; try (by rewrite app_nil_r). by destruct (Hc text).
Qed.

Lemma outside_op_silent {A} (f : ext -> result A * ext) : silent (outside_op f).
Proof. intros w. unfold outside_op. by destruct (f (outside w)). Qed.

Lemma getitem_adds df key : adds (getitem df key) (c_getitem df key) r_ref.
Proof.
  apply invoke_adds; [|done]. intros w.
  destruct (heap w !! df) as [[d| |]|]; try done.
  by destruct (df_getitem d key).
Qed.

Lemma drop_columns_adds df labels : adds (drop_columns df labels) (c_drop df labels) r_ref.
Proof.
  apply invoke_adds; [|done]. intros w.
  destruct (heap w !! df) as [[d| |]|]; try done.
  by destruct (df_drop d labels).
Qed.

Lemma model_predict_adds m X : adds (model_predict m X) (c_predict m X) r_ref.
Proof.
  apply invoke_adds; [|done]. intros w.
  destruct (heap w !! X) as [o|]; [|done].
  by destruct (predict m o) as [[a|e] o'].
Qed.

Lemma metric_adds c f y yp : (forall t, c y yp <> c_print t) -> adds (metric c f y yp) (c y yp) r_value.
Proof.
  intros Hc. apply invoke_adds; [|done]. intros w.
  by destruct (heap w !! y), (heap w !! yp).
Qed.

Lemma pd_read_csv_adds path : adds (pd_read_csv path) (c_read_csv path) r_ref.
Proof.
  apply invoke_adds; [|done]. intros w.
  destruct (outside_op_silent (read_csv path) w) as [Ht Ho].
  by destruct (outside_op (read_csv path) w) as [[d|e] w'].
Qed.

Lemma train_test_split_adds df ts rs :
  adds (train_test_split df ts rs) (c_train_test_split df ts rs) (fun p : loc * loc => r_refs p.1 p.2).
Proof.
  apply invoke_adds; [|done]. intros w.
  destruct (heap w !! df) as [[d| |]|]; try done.
  destruct (validate_shuffle_split _ _) as [[n_train n_test]|e]; [|done].
  unfold draw_permutation. destruct rs as [seed|]; [done|].
  by destruct (rng_permutation _ _).
Qed.

Lemma print_run args sep w :
  print args sep w = (Ok tt, log (print_entry (join sep args +:+ nl)) (write (join sep args +:+ nl) w)).
Proof. reflexivity. Qed.


(** Execute the next step of the computation in [E], splitting on its
    outcome and recording what it added to the history and the output. *)
Tactic Notation "exec_step" hyp(E) constr(lem) "as" ident(a) ident(ex) ident(w1) :=
  rewrite bind_run in E;
  match type of E with
  | context [match ?m ?w with _ => _ end] =>
      let Ht := fresh "Ht" in
      let Ho := fresh "Ho" in
      destruct (lem w) as [Ht Ho];
      destruct (m w) as [[a|ex] w1]; cbv beta iota in E; simpl in Ht, Ho;
      try match goal with T : trace w = _ |- _ => rewrite T in Ht end;
      try match goal with O : stdout w = _ |- _ => rewrite O in Ho end;
      rewrite <- ?app_assoc in Ht; rewrite <- ?app_assoc in Ho;
      simpl in Ht, Ho; rewrite ?app_nil_r in Ho
  end.

Ltac stop_at n :=
  exists n; do 2 eexists; split; [reflexivity|]; simpl; reflexivity.

(** Close the case of a run that stopped: rewrite the final history and
    output, then check them against the script. *)
Ltac finish E :=
  injection E as <- <-; simpl;
  match goal with
  | T : trace ?w0 = _, O : stdout ?w0 = _ |- context [trace ?w0] => rewrite T, O
  end.

Lemma test_model_history m l w :
  exists y X y_pred auc acc rec f1 new,
    trace (test_model m l w).2 = trace w ++ new /\
    stdout (test_model m l w).2 = stdout w /\
    omap printed new = [] /\
    match (test_model m l w).1 with
    | Ok d => d = local_metrics_dict auc acc rec f1
              /\ new = test_model_script m l y X y_pred auc acc rec f1
    | Err ex => stopped (test_model_script m l y X y_pred auc acc rec f1) ex new
    end.
Proof.
  destruct (test_model m l w) as [r w'] eqn:E. unfold test_model in E.
  exec_step E (getitem_adds l "target") as y ex w1;
    [|do 8 eexists; finish E; split; [reflexivity|]; do 2 (split; [done|]); stop_at 0%nat].
  exec_step E (drop_columns_adds l ["target"]) as X ex w2;
    [|do 8 eexists; finish E; split; [reflexivity|]; do 2 (split; [done|]); stop_at 1%nat].
  exec_step E (model_predict_adds m X) as y_pred ex w3;
    [|do 8 eexists; finish E; split; [reflexivity|]; do 2 (split; [done|]); stop_at 2%nat].
  exec_step E (metric_adds c_roc_auc_score roc_auc_score y y_pred ltac:(done)) as auc ex w4;
    [|do 8 eexists; finish E; split; [reflexivity|]; do 2 (split; [done|]); stop_at 3%nat].
  exec_step E (metric_adds c_accuracy_score accuracy_score y y_pred ltac:(done)) as acc ex w5;
    [|do 8 eexists; finish E; split; [reflexivity|]; do 2 (split; [done|]); stop_at 4%nat].
  exec_step E (metric_adds c_recall_score recall_score y y_pred ltac:(done)) as rec ex w6;
    [|do 8 eexists; finish E; split; [reflexivity|]; do 2 (split; [done|]); stop_at 5%nat].
  exec_step E (metric_adds c_f1_score f1_score y y_pred ltac:(done)) as f1 ex w7;
    [|do 8 eexists; finish E; split; [reflexivity|]; do 2 (split; [done|]); stop_at 6%nat].
  do 8 eexists. finish E.
  split; [reflexivity|]. do 2 (split; [done|]). split; reflexivity.
  Unshelve. all: first [exact 1%positive | exact PNone].
Qed.

Lemma stopped_within pre scr post ex new :
  stopped scr ex new -> stopped (pre ++ scr ++ post) ex (pre ++ new).
Proof.
  intros (k & c & r0 & Hk & ->). exists (length pre + k)%nat, c, r0. split.
  - rewrite lookup_app_r by lia. replace (length pre + k - length pre)%nat with k by lia.
    by apply lookup_app_l_Some.
  - rewrite take_app_add'; [|done]. rewrite <- app_assoc. do 2 f_equal.
    rewrite take_app_le; [done|]. apply lookup_lt_Some in Hk. lia.
Qed.

Lemma print_adds args sep :
  adds (print args sep) (c_print (join sep args +:+ nl)) (fun _ => r_None).
Proof. intros w. done. Qed.

Lemma dict_getitem_item (d : pydict) k v :
  NoDup (dict_keys d) -> (k, v) ∈ d -> dict_getitem d k = Ok v.
Proof.
  unfold dict_keys. induction d as [|[k' v'] d IH]; intros Hnd Hin.
  - by apply elem_of_nil in Hin.
  - simpl in *. apply NoDup_cons in Hnd as [Hk' Hnd]. apply elem_of_cons in Hin as [Heq|Hin].
    + injection Heq as -> ->. by rewrite decide_True.
    + rewrite decide_False; [by apply IH|].
      intros ->. apply Hk'. apply list_elem_of_fmap. by exists (k, v).
Qed.

(** One loop of cell 9 prints one line per item, in order, and does
    nothing else. *)
Lemma print_loop (d items : pydict) w :
  (forall kv, kv ∈ items -> dict_getitem d kv.1 = Ok kv.2) ->
  for_each (dict_keys items) (fun k =>
    v ← subscript d k; print [k +:+ ": " +:+ py_format v] " ") w
  = (Ok tt, mkWorld (heap w) (np_random w) (outside w)
              (trace w ++ map (fun kv => print_entry (metric_line kv)) items)
              (stdout w ++ map metric_line items)).
Proof.
  revert w. induction items as [|[k v] items IH]; intros w Hd.
  - destruct w. simpl. by rewrite !app_nil_r.
  - change (dict_keys ((k, v) :: items)) with (k :: dict_keys items).
    cbn [for_each]. rewrite bind_run, bind_run. unfold subscript at 1.
    pose proof (Hd (k, v) (list_elem_of_here _ _)) as Hkv. simpl in Hkv.
    rewrite Hkv, print_run. cbv beta iota.
    rewrite IH by (intros kv ?; apply Hd; by apply list_elem_of_further).
    simpl. by rewrite <- !app_assoc.
Qed.

Lemma printed_metric_lines (l : pydict) :
  omap printed (map (fun kv => print_entry (metric_line kv)) l) = map metric_line l.
Proof. induction l as [|kv l IHl]; [done|]. simpl. by f_equal. Qed.

Lemma print_metrics_run brm lm w :
  NoDup (dict_keys brm) -> NoDup (dict_keys lm) ->
  print_metrics brm lm w
  = (Ok tt, mkWorld (heap w) (np_random w) (outside w)
              (trace w ++ print_metrics_script brm lm)
              (stdout w ++ omap printed (print_metrics_script brm lm))).
Proof.
  intros Hb Hl. unfold print_metrics.
  rewrite bind_run, print_run. cbv beta iota.
  rewrite bind_run, print_loop by (intros [k v] ?; by apply dict_getitem_item).
  cbv beta iota.
  rewrite bind_run, print_run. cbv beta iota.
  rewrite print_loop by (intros [k v] ?; by apply dict_getitem_item).
  simpl. unfold print_metrics_script. simpl.
  rewrite omap_app. simpl. rewrite !printed_metric_lines.
  by rewrite <- !app_assoc.
Qed.

Lemma invoke_outside_result {A} c (ret : A -> retval) (f : ext -> result A * ext) w :
  (invoke c ret (outside_op f) w).1 = (f (outside w)).1.
Proof. unfold invoke, outside_op. by destruct (f (outside w)). Qed.

Lemma get_metrics_nodup r w :
  match (invoke (c_get_metrics r) r_dict (outside_op (get_metrics r)) w).1 with
  | Ok d => NoDup (dict_keys d)
  | Err _ => True
  end.
Proof. rewrite invoke_outside_result. apply get_metrics_keys. Qed.

Lemma local_metrics_nodup auc acc rec f1 :
  NoDup (dict_keys (local_metrics_dict auc acc rec f1)).
Proof. unfold dict_keys. simpl. by apply (bool_decide_unpack _). Qed.

Ltac stop_setup E n :=
  eexists (mkGlobals _ _ _ _ _ _ _ _ _ _ _), _, _, _, _, _, _, _;
  finish E; split; [reflexivity|]; stop_at n.

Lemma outside_call_adds {A} c (ret : A -> retval) (f : ext -> result A * ext) :
  (forall t, c <> c_print t) -> adds (invoke c ret (outside_op f)) c ret.
Proof. intros Hc. apply invoke_adds; [apply outside_op_silent|done]. Qed.

Lemma filterwarnings_adds action :
  adds (invoke (c_filterwarnings action) (fun _ : unit => r_None) (fun w => (Ok tt, w)))
       (c_filterwarnings action) (fun _ => r_None).
Proof. by apply invoke_adds. Qed.

Lemma submit_adds exp cfg :
  adds (invoke (c_submit exp cfg) r_run (fun w => outside_op (submit exp cfg (heap w)) w))
       (c_submit exp cfg) r_run.
Proof. apply invoke_adds; [|done]. intros w. apply outside_op_silent. Qed.

Lemma run_all_history s e :
  exists g y X y_pred auc acc rec f1,
    stdout (run_all s e).2 = omap printed (trace (run_all s e).2) /\
    match (run_all s e).1 with
    | Ok g' => g' = g
               /\ trace (run_all s e).2 = script g y X y_pred auc acc rec f1
               /\ g_automl_config g = automl_config (g_train_ds g) (g_test_ds g)
               /\ g_local_metrics g = local_metrics_dict auc acc rec f1
    | Err ex => stopped (script g y X y_pred auc acc rec f1) ex (trace (run_all s e).2)
    end.
Proof.
  destruct (run_all s e) as [r w'] eqn:E. unfold run_all, notebook in E.
  exec_step E (filterwarnings_adds "ignore") as u ex w1; [|stop_setup E 0%nat].
  exec_step E (outside_call_adds (c_Workspace_from_config "../notebooks-settings/config.json")
                 r_workspace (Workspace_from_config "../notebooks-settings/config.json")
                 ltac:(done)) as ws ex w2;
    [|stop_setup E 1%nat].
  exec_step E (print_adds [ws_name ws; ws_resource_group ws; ws_location ws;
                           ws_subscription_id ws] nl) as u1 ex w3;
    [|stop_setup E 2%nat].
  exec_step E (pd_read_csv_adds DATASET_PATH) as df ex w4; [|stop_setup E 3%nat].
  exec_step E (train_test_split_adds df SPLIT_PERCENTAGE (Some SPLIT_SEED)) as tt ex w5;
    [|stop_setup E 4%nat].
  destruct tt as [train_ds test_ds]. cbv beta iota zeta in E.
  exec_step E (outside_call_adds (c_AutoMLConfig (automl_config train_ds test_ds))
                 (fun _ : unit => r_None) (AutoMLConfig_init (automl_config train_ds test_ds))
                 ltac:(done)) as u2 ex w6;
    [|stop_setup E 5%nat].
  exec_step E (outside_call_adds (c_Experiment ws "automl-classification") r_experiment
                 (Experiment_init ws "automl-classification") ltac:(done)) as exp ex w7;
    [|stop_setup E 6%nat].
  exec_step E (submit_adds exp (automl_config train_ds test_ds)) as run ex w8;
    [|stop_setup E 7%nat].
  exec_step E (outside_call_adds (c_wait_for_completion run true) (fun _ : unit => r_None)
                 (wait_for_completion run true) ltac:(done)) as u3 ex w9;
    [|stop_setup E 8%nat].
  exec_step E (outside_call_adds (c_RunDetails_show run) (fun _ : unit => r_None)
                 (RunDetails_show run) ltac:(done)) as u4 ex w10;
    [|stop_setup E 9%nat].
  exec_step E (outside_call_adds (c_get_output run) (fun p : Run * Model => r_output p.1 p.2)
                 (get_output run) ltac:(done)) as out ex w11;
    [|stop_setup E 10%nat].
  destruct out as [best_run fitted_model]. cbv beta iota zeta in E.
  pose proof (get_metrics_nodup best_run w11) as Hnd.
  exec_step E (outside_call_adds (c_get_metrics best_run) r_dict
                 (get_metrics best_run) ltac:(done)) as brm ex w12;
    [|stop_setup E 11%nat].
  simpl in Hnd.
  rewrite bind_run in E.
  destruct (test_model_history fitted_model test_ds w12)
    as (y & X & y_pred & auc & acc & rec & f1 & new & Ht12 & Ho12 & Hp & Hr).
  destruct (test_model fitted_model test_ds w12) as [[lm|ex] w13]; simpl in Ht12, Ho12, Hr.
  - destruct Hr as [-> ->]. rewrite bind_run in E.
    rewrite print_metrics_run in E by (done || apply local_metrics_nodup).
    cbv beta iota in E. injection E as <- <-. simpl.
    eexists (mkGlobals _ _ _ _ _ _ _ _ _ _ _), _, _, _, _, _, _, _.
    rewrite Ht12, Ho12, Ht10, Ho10. simpl.
    split; [|split; [reflexivity|split; [|done]]].
    + reflexivity.
    + reflexivity.
  - injection E as <- <-. simpl.
    exists (mkGlobals ws df train_ds test_ds (automl_config train_ds test_ds) exp run
              best_run fitted_model brm []), y, X, y_pred, auc, acc, rec, f1.
    rewrite Ht12, Ho12, Ht10, Ho10. split.
    + rewrite omap_app, Hp. reflexivity.
    + exact (stopped_within (setup_script _) _
               (print_metrics_script brm (local_metrics_dict auc acc rec f1)) ex new Hr).
  Unshelve.
  all: first [exact 1%positive | exact PNone | exact [] | exact (mkWorkspace EmptyString EmptyString EmptyString EmptyString)
             | exact (ExperimentRef 0) | exact (RunRef 0) | exact (ModelRef 0)
             | exact (automl_config 1%positive 1%positive)].
Qed.

(** *** [test_model] on a dataframe: outcome and heap *)

Lemma getitem_run df key w :
  getitem df key w =
  match heap w !! df with
  | Some (ODataFrame d) =>
      match df_getitem d key with
      | Ok o => (Ok (alloc o w).1,
                 log (c_getitem df key, Ok (r_ref (alloc o w).1)) (alloc o w).2)
      | Err e => (Err e, log (c_getitem df key, Err e) w)
      end
  | _ => (Err not_a_frame, log (c_getitem df key, Err not_a_frame) w)
  end.
Proof.
  unfold getitem, invoke. destruct (heap w !! df) as [[d| |]|]; try reflexivity.
  destruct (df_getitem d key); reflexivity.
Qed.

Lemma drop_columns_run df labels w :
  drop_columns df labels w =
  match heap w !! df with
  | Some (ODataFrame d) =>
      match df_drop d labels with
      | Ok d' => (Ok (alloc (ODataFrame d') w).1,
                  log (c_drop df labels, Ok (r_ref (alloc (ODataFrame d') w).1))
                      (alloc (ODataFrame d') w).2)
      | Err e => (Err e, log (c_drop df labels, Err e) w)
      end
  | _ => (Err not_a_frame, log (c_drop df labels, Err not_a_frame) w)
  end.
Proof.
  unfold drop_columns, invoke. destruct (heap w !! df) as [[d| |]|]; try reflexivity.
  destruct (df_drop d labels); reflexivity.
Qed.

Lemma model_predict_run m X w o :
  heap w !! X = Some o ->
  model_predict m X w =
  let w1 := set_heap (<[X := (predict m o).2]> (heap w)) w in
  match (predict m o).1 with
  | Ok a => (Ok (alloc (OArray a) w1).1,
             log (c_predict m X, Ok (r_ref (alloc (OArray a) w1).1)) (alloc (OArray a) w1).2)
  | Err e => (Err e, log (c_predict m X, Err e) w1)
  end.
Proof.
  intros Ho. unfold model_predict, invoke. rewrite Ho.
  destruct (predict m o) as [[a|e] o']; reflexivity.
Qed.

Lemma metric_run c f y yp w a b :
  heap w !! y = Some a -> heap w !! yp = Some b ->
  metric c f y yp w = (f a b, log (c y yp, result_map r_value (f a b)) w).
Proof. intros Ha Hb. unfold metric, invoke. by rewrite Ha, Hb. Qed.

Lemma heap_log en w : heap (log en w) = heap w.
Proof. reflexivity. Qed.

Lemma test_model_refines m l w d :
  heap w !! l = Some (ODataFrame d) ->
  (test_model m l w).1 = test_model_outcome m d
  /\ heap w ⊆ heap (test_model m l w).2.
Proof.
  intros Hl. unfold test_model, test_model_outcome.
  rewrite bind_run, getitem_run, Hl.
  destruct (df_getitem d "target") as [y|e]; [|done].
  cbv beta iota. set (ly := (alloc y w).1). set (w1 := log _ _).
  assert (Hw1 : heap w ⊆ heap w1).
  { unfold w1. rewrite heap_log, alloc_heap. apply insert_subseteq, alloc_fresh. }
  assert (Hy : heap w1 !! ly = Some y) by apply alloc_new.
  rewrite bind_run, drop_columns_run, (lookup_weaken _ _ _ _ Hl Hw1).
  destruct (df_drop d ["target"]) as [X|e]; [|done].
  cbv beta iota. set (lX := (alloc (ODataFrame X) w1).1). set (w2 := log _ _).
  assert (HX1 : heap w1 !! lX = None) by apply alloc_fresh.
  assert (HX : heap w2 !! lX = Some (ODataFrame X)) by apply alloc_new.
  assert (Hw2 : heap w2 = <[lX := ODataFrame X]> (heap w1)) by reflexivity.
  rewrite bind_run, (model_predict_run _ _ _ _ HX). cbv zeta.
  set (w3 := set_heap _ w2).
  assert (Hw3 : heap w1 ⊆ heap w3).
  { unfold w3. change (heap (set_heap ?h _)) with h.
    rewrite Hw2, insert_insert_eq. by apply insert_subseteq. }
  destruct (predict m (ODataFrame X)) as [[y_pred|e] X']; cbn [fst snd];
    [|split; [done|by etrans]].
  cbv beta iota. set (lp := (alloc (OArray y_pred) w3).1). set (w4 := log _ _).
  assert (Hw4 : heap w3 ⊆ heap w4).
  { unfold w4. rewrite heap_log, alloc_heap. apply insert_subseteq, alloc_fresh. }
  assert (Hp : heap w4 !! lp = Some (OArray y_pred)) by apply alloc_new.
  assert (Hy4 : heap w4 !! ly = Some y).
  { eapply lookup_weaken; [|exact Hw4]. eapply lookup_weaken; [exact Hy|exact Hw3]. }
  assert (Hall : heap w ⊆ heap w4) by (etrans; [exact Hw1|]; by etrans).
  assert (Hm : forall c f (w0 : World), heap w0 = heap w4 ->
            metric c f ly lp w0
            = (f y (OArray y_pred), log (c ly lp, result_map r_value (f y (OArray y_pred))) w0)).
  { intros c f w0 Hw0. apply metric_run; by rewrite Hw0. }
  rewrite bind_run, Hm by done.
  destruct (roc_auc_score y (OArray y_pred)) as [auc|e]; [|done].
  cbv beta iota. rewrite bind_run, Hm by done.
  destruct (accuracy_score y (OArray y_pred)) as [acc|e]; [|done].
  cbv beta iota. rewrite bind_run, Hm by done.
  destruct (recall_score y (OArray y_pred)) as [rec|e]; [|done].
  cbv beta iota. rewrite bind_run, Hm by done.
  destruct (f1_score y (OArray y_pred)) as [f1|e]; [|done].
  done.
Qed.

(** *** pandas: column lookup and removal *)

Lemma positions_from_nil i cols k : positions_from i cols k = [] <-> k ∉ cols.
Proof.
  revert i. induction cols as [|c cols IH]; intros i; simpl.
  - split; [intros _; apply not_elem_of_nil|done].
  - destruct (decide (c = k)) as [->|Hne].
    + split; [done|]. intros Hk. destruct Hk. apply list_elem_of_here.
    + rewrite IH, not_elem_of_cons. split; [by intros ?; split|by intros [_ ?]].
Qed.

Lemma df_getitem_missing d k : k ∉ columns d -> df_getitem d k = Err (KeyError k).
Proof.
  intros Hk. unfold df_getitem, positions.
  by rewrite (proj2 (positions_from_nil 0 (columns d) k) Hk).
Qed.

Lemma df_getitem_present d k : k ∈ columns d -> exists y, df_getitem d k = Ok y.
Proof.
  intros Hk. unfold df_getitem, positions.
  destruct (positions_from 0 (columns d) k) as [|p [|q ps]] eqn:Hp; [|by eexists..].
  apply positions_from_nil in Hp. contradiction.
Qed.

Lemma df_drop_present d k :
  k ∈ columns d ->
  df_drop d [k] = Ok (keep_columns (map (fun c => bool_decide (c ∉ [k])) (columns d)) d).
Proof.
  intros Hk. unfold df_drop. simpl. rewrite filter_cons_False; [done|]. by intros [].
Qed.

Lemma select_by_predicate {A} (P : A -> Prop) `{!forall x, Decision (P x)} (l : list A) :
  select (map (fun x => bool_decide (P x)) l) l = filter P l.
Proof.
  induction l as [|x l IH]; [done|]. simpl. rewrite IH.
  destruct (decide (P x)) as [HP|HP].
  - by rewrite bool_decide_eq_true_2, filter_cons_True.
  - by rewrite bool_decide_eq_false_2, filter_cons_False.
Qed.

(** The frame handed to [predict] has every column but the label. *)
Lemma df_drop_columns d k X :
  df_drop d [k] = Ok X -> columns X = filter (fun c => c <> k) (columns d).
Proof.
  unfold df_drop. destruct (filter _ [k]); [|done]. intros [= <-]. simpl.
  rewrite select_by_predicate. apply list_filter_iff. intros c.
  rewrite list_elem_of_singleton. done.
Qed.

(** *** Claims about [test_model] *)

(** C1 (amended). For every fitted model and every dataframe [test_ds]
    with a 'target' column, the lookup of the label and the removal of the
    label column succeed, and [test_model] returns a mapping exactly when
    [predict] and the four metric functions return: the mapping then has the
    keys 'AUC', 'Accuracy', 'Recall' and 'F1', in this order, bound to
    [roc_auc_score], [accuracy_score], [recall_score] and [f1_score] of the
    'target' column and of the predictions on the other columns.  When one
    of these calls raises, [test_model] does not return a mapping. *)
Theorem test_model_returns_metrics m test_ds w d :
  heap w !! test_ds = Some (ODataFrame d) ->
  "target" ∈ columns d ->
  exists y X,
    df_getitem d "target" = Ok y /\
    df_drop d ["target"] = Ok X /\
    columns X = filter (fun c => c <> "target") (columns d) /\
    forall r,
      (test_model m test_ds w).1 = Ok r <->
      exists y_pred auc acc rec f1,
        (predict m (ODataFrame X)).1 = Ok y_pred /\
        roc_auc_score y (OArray y_pred) = Ok auc /\
        accuracy_score y (OArray y_pred) = Ok acc /\
        recall_score y (OArray y_pred) = Ok rec /\
        f1_score y (OArray y_pred) = Ok f1 /\
        r = [("AUC", auc); ("Accuracy", acc); ("Recall", rec); ("F1", f1)].
Proof.
  intros Hl Ht.
  destruct (df_getitem_present d "target" Ht) as [y Hy].
  pose proof (df_drop_present d "target" Ht) as HX.
  eexists y, _. split; [done|]. split; [exact HX|].
  split; [by apply df_drop_columns|]. intros r.
  destruct (test_model_refines m test_ds w d Hl) as [-> _].
  unfold test_model_outcome. rewrite Hy, HX.
  destruct (predict m _) as [[y_pred|e] X']; simpl.
  2:{ split; [done|]. by intros (? & ? & ? & ? & ? & ? & _). }
  destruct (roc_auc_score y (OArray y_pred)) as [auc|e] eqn:E1.
  2:{ split; [done|]. intros (? & ? & ? & ? & ? & ? & ? & _). simplify_eq; congruence. }
  destruct (accuracy_score y (OArray y_pred)) as [acc|e] eqn:E2.
  2:{ split; [done|]. intros (? & ? & ? & ? & ? & ? & _ & ? & _). simplify_eq; congruence. }
  destruct (recall_score y (OArray y_pred)) as [rec|e] eqn:E3.
  2:{ split; [done|]. intros (? & ? & ? & ? & ? & ? & _ & _ & ? & _). simplify_eq; congruence. }
  destruct (f1_score y (OArray y_pred)) as [f1|e] eqn:E4.
  2:{ split; [done|]. intros (? & ? & ? & ? & ? & ? & _ & _ & _ & ? & _). simplify_eq; congruence. }
  split.
  - intros [= <-]. by exists y_pred, auc, acc, rec, f1.
  - intros (? & ? & ? & ? & ? & ? & ? & ? & ? & ? & ->). simplify_eq.
    unfold local_metrics_dict. congruence.
Qed.

(** C8. For every fitted model and every dataframe [test_ds], the object
    [test_ds] has the same content after [test_model] as before: the column
    selection and the drop create new objects, and so does every other
    step, so that each object that existed before the call is unchanged. *)
Theorem test_model_leaves_argument_unchanged m test_ds w d :
  heap w !! test_ds = Some (ODataFrame d) ->
  heap (test_model m test_ds w).2 !! test_ds = Some (ODataFrame d)
  /\ heap w ⊆ heap (test_model m test_ds w).2.
Proof.
  intros Hl. destruct (test_model_refines m test_ds w d Hl) as [_ Hsub].
  split; [|done]. by eapply lookup_weaken.
Qed.

Ltac close_prefix E :=
  injection E as <- <-; simpl;
  match goal with T : trace ?w0 = _ |- context [trace ?w0] => rewrite T end;
  eexists _, _, _.

(** With a 'target' column, the first two calls of [test_model] return,
    each with a new object. *)
Lemma test_model_first_calls m l w d :
  heap w !! l = Some (ODataFrame d) ->
  "target" ∈ columns d ->
  exists y X rest,
    trace (test_model m l w).2
    = trace w ++ (c_getitem l "target", Ok (r_ref y))
              :: (c_drop l ["target"], Ok (r_ref X)) :: rest
    /\ heap w !! y = None /\ heap w !! X = None.
Proof.
  intros Hl Ht.
  destruct (df_getitem_present d "target" Ht) as [oy Hy].
  pose proof (df_drop_present d "target" Ht) as HX.
  destruct (test_model m l w) as [r w'] eqn:E. unfold test_model in E.
  rewrite bind_run, getitem_run, Hl, Hy in E. cbv beta iota in E.
  set (y := (alloc oy w).1) in *. set (w1 := log _ (alloc oy w).2) in *.
  assert (Hw1 : heap w ⊆ heap w1).
  { unfold w1. rewrite heap_log, alloc_heap. apply insert_subseteq, alloc_fresh. }
  rewrite bind_run, drop_columns_run, (lookup_weaken _ _ _ _ Hl Hw1), HX in E.
  cbv beta iota in E.
  set (dX := keep_columns _ d) in *.
  set (X := (alloc (ODataFrame dX) w1).1) in *.
  set (w2 := log _ (alloc (ODataFrame dX) w1).2) in *.
  assert (T2 : trace w2 = trace w ++ [(c_getitem l "target", Ok (r_ref y));
                                       (c_drop l ["target"], Ok (r_ref X))]).
  { unfold w2, w1. simpl. by rewrite <- app_assoc. }
  assert (Hfresh : heap w !! y = None /\ heap w !! X = None).
  { split; [apply alloc_fresh|]. eapply lookup_weaken_None; [|exact Hw1]. apply alloc_fresh. }
  clearbody w2.
  exec_step E (model_predict_adds m X) as y_pred ex w3;
    [|by close_prefix E].
  exec_step E (metric_adds c_roc_auc_score roc_auc_score y y_pred ltac:(done)) as auc ex w4;
    [|by close_prefix E].
  exec_step E (metric_adds c_accuracy_score accuracy_score y y_pred ltac:(done)) as acc ex w5;
    [|by close_prefix E].
  exec_step E (metric_adds c_recall_score recall_score y y_pred ltac:(done)) as rec ex w6;
    [|by close_prefix E].
  exec_step E (metric_adds c_f1_score f1_score y y_pred ltac:(done)) as f1 ex w7;
    [|by close_prefix E].
  by close_prefix E.
Qed.

(** *** Reading the history of a run against the script *)

Lemma test_model_script_returned m l y X y_pred auc acc rec f1 :
  Forall (fun en : entry => is_ok en.2 = true)
         (test_model_script m l y X y_pred auc acc rec f1).
Proof. unfold test_model_script. by repeat constructor. Qed.

Lemma print_metrics_script_prints brm lm :
  Forall (fun en : entry => en.2 = Ok r_None /\ exists t, en.1 = c_print t)
         (print_metrics_script brm lm).
Proof.
  unfold print_metrics_script.
  apply Forall_cons; split; [by eauto|]. apply Forall_app; split.
  - apply Forall_fmap, Forall_true. intros kv. simpl. by eauto.
  - apply Forall_cons; split; [by eauto|].
    apply Forall_fmap, Forall_true. intros kv. simpl. by eauto.
Qed.

Lemma script_returned g y X y_pred auc acc rec f1 :
  Forall (fun en : entry => is_ok en.2 = true) (script g y X y_pred auc acc rec f1).
Proof.
  unfold script. apply Forall_app; split; [by repeat constructor|].
  apply Forall_app; split; [apply test_model_script_returned|].
  eapply Forall_impl; [apply print_metrics_script_prints|].
  intros en [Hen _]. by rewrite Hen.
Qed.

(** An entry of a stopped history sits where the script has the same
    call; the entries before it are those of the script, and it either
    is the script's entry or is the last entry and raised. *)
Lemma stopped_lookup scr ex new i c r :
  stopped scr ex new -> new !! i = Some (c, r) ->
  (exists r0, scr !! i = Some (c, r0))
  /\ (forall j, (j < i)%nat -> new !! j = scr !! j)
  /\ (scr !! i = Some (c, r) \/ (r = Err ex /\ length new = S i)).
Proof.
  intros (k & c' & r0 & Hk & ->) Hi.
  pose proof (lookup_lt_Some _ _ _ Hk) as Hlen.
  assert (Hlk : length (take k scr) = k) by (rewrite length_take; lia).
  destruct (decide (i < k)%nat) as [Hlt|Hge].
  - rewrite lookup_app_l in Hi by lia. rewrite lookup_take_lt in Hi by done.
    split; [by eauto|]. split; [|by left].
    intros j Hj. rewrite lookup_app_l by lia. apply lookup_take_lt. lia.
  - rewrite lookup_app_r in Hi by lia. rewrite Hlk in Hi.
    destruct (i - k)%nat as [|n] eqn:Hik; [|by destruct n].
    injection Hi as <- <-. assert (i = k) as -> by lia.
    split; [by eauto|]. split.
    + intros j Hj. rewrite lookup_app_l by lia. apply lookup_take_lt. lia.
    + right. split; [done|]. rewrite length_app, Hlk. simpl. lia.
Qed.

(** The history of every run, read against the script. *)
Lemma run_all_lookup s e :
  exists g y X y_pred auc acc rec f1,
    (forall g', (run_all s e).1 = Ok g' ->
       g' = g /\ trace (run_all s e).2 = script g y X y_pred auc acc rec f1
       /\ g_automl_config g = automl_config (g_train_ds g) (g_test_ds g)
       /\ g_local_metrics g = local_metrics_dict auc acc rec f1)
    /\ forall i c r, trace (run_all s e).2 !! i = Some (c, r) ->
         (exists r0, script g y X y_pred auc acc rec f1 !! i = Some (c, r0))
         /\ (forall j, (j < i)%nat ->
               trace (run_all s e).2 !! j = script g y X y_pred auc acc rec f1 !! j)
         /\ (is_ok r = true \/
             exists ex, r = Err ex /\ (run_all s e).1 = Err ex
                        /\ length (trace (run_all s e).2) = S i).
Proof.
  destruct (run_all_history s e) as (g & y & X & y_pred & auc & acc & rec & f1 & _ & Hr).
  exists g, y, X, y_pred, auc, acc, rec, f1.
  pose proof (script_returned g y X y_pred auc acc rec f1) as Hok.
  destruct (run_all s e) as [[g'|ex] w]; simpl in *.
  - destruct Hr as (-> & -> & Hc & Hm). split; [by intros ? [= <-]|].
    intros i c r Hi. split; [by eauto|]. split; [done|]. left.
    by apply (Forall_lookup_1 _ _ _ _ Hok Hi).
  - split; [done|]. intros i c r Hi.
    destruct (stopped_lookup _ _ _ _ _ _ Hr Hi) as (H1 & H2 & [H3|[-> H3]]).
    + split; [done|]. split; [done|]. left. by apply (Forall_lookup_1 _ _ _ _ Hok H3).
    + split; [done|]. split; [done|]. right. by exists ex.
Qed.

(** Where the script has the calls the claims speak about. *)
Lemma print_metrics_script_lookup brm lm i c r :
  print_metrics_script brm lm !! i = Some (c, r) -> exists t, c = c_print t.
Proof.
  intros Hi. by destruct (Forall_lookup_1 _ _ _ _ (print_metrics_script_prints brm lm) Hi).
Qed.

Ltac script_inv H :=
  unfold script, setup_script, test_model_script in H; simpl in H;
  do 19 (try match type of H with
             | (_ :: _) !! ?n = _ => destruct n; simpl in H; [try discriminate H|]
             end);
  try (apply print_metrics_script_lookup in H; destruct H; discriminate).

Lemma script_get_output g y X y_pred auc acc rec f1 i r r0 :
  script g y X y_pred auc acc rec f1 !! i = Some (c_get_output r, r0) ->
  i = 10%nat /\ r = g_automl_run g.
Proof. intros H. script_inv H. by injection H as <- _. Qed.

Lemma script_AutoMLConfig g y X y_pred auc acc rec f1 i cfg r0 :
  script g y X y_pred auc acc rec f1 !! i = Some (c_AutoMLConfig cfg, r0) ->
  i = 5%nat /\ cfg = automl_config (g_train_ds g) (g_test_ds g).
Proof. intros H. script_inv H. by injection H as <- _. Qed.

Lemma script_getitem g y X y_pred auc acc rec f1 i l k r0 :
  script g y X y_pred auc acc rec f1 !! i = Some (c_getitem l k, r0) ->
  i = 12%nat /\ l = g_test_ds g /\ k = "target".
Proof. intros H. script_inv H. by injection H as <- <- _. Qed.

Lemma stopped_raises scr ex0 new :
  Forall (fun en : entry => is_ok en.2 = true) scr ->
  stopped scr ex0 new ->
  forall ex, (exists c, (c, Err ex) ∈ new) <-> ex = ex0.
Proof.
  intros Hok (k & c' & r0 & Hk & ->) ex. split.
  - intros [c Hin]. apply elem_of_app in Hin as [Hin|Hin].
    + apply list_elem_of_lookup in Hin as [i Hi].
      apply lookup_take_Some in Hi as [Hi _].
      by apply (Forall_lookup_1 _ _ _ _ Hok) in Hi.
    + apply list_elem_of_singleton in Hin. by injection Hin.
  - intros ->. exists c'. apply elem_of_app. right. apply list_elem_of_here.
Qed.

(** *** [train_test_split] *)

Lemma ceiling_seven_tenths (n : nat) :
  Z.to_nat (Qceiling (SPLIT_PERCENTAGE * inject_Z (Z.of_nat n))) = ((7 * n + 9) / 10)%nat.
Proof.
  unfold SPLIT_PERCENTAGE, Qceiling, Qfloor, Qopp, Qmult, inject_Z. simpl Qnum. simpl Qden.
  change (Z.pos (10 * 1)) with 10%Z.
  apply Nat2Z.inj. rewrite Nat2Z.inj_div, Z2Nat.id.
  - replace (Z.of_nat (7 * n + 9)) with (7 * Z.of_nat n + 9)%Z by lia.
    change (Z.of_nat 10) with 10%Z.
    Z.to_euclidean_division_equations. lia.
  - Z.to_euclidean_division_equations. lia.
Qed.

Lemma validate_seven_tenths (n : nat) :
  validate_shuffle_split n SPLIT_PERCENTAGE
  = if decide (4 <= n)%nat
    then Ok ((n - (7 * n + 9) / 10)%nat, ((7 * n + 9) / 10)%nat)
    else Err (ValueError "the resulting train set will be empty").
Proof.
  unfold validate_shuffle_split.
  change (Qle_bool SPLIT_PERCENTAGE 0 || Qle_bool 1 SPLIT_PERCENTAGE) with false.
  cbv beta iota zeta. rewrite ceiling_seven_tenths.
  assert (H10 : (10 * ((7 * n + 9) / 10) <= 7 * n + 9 < 10 * ((7 * n + 9) / 10) + 10)%nat).
  { pose proof (Nat.div_mod_eq (7 * n + 9) 10).
    pose proof (Nat.mod_upper_bound (7 * n + 9) 10). lia. }
  destruct (decide (4 <= n)%nat), (decide (_ = 0%nat)); try done; lia.
Qed.

Lemma train_test_split_run df ts seed w d :
  heap w !! df = Some (ODataFrame d) ->
  train_test_split df ts (Some seed) w =
  match split_frames d ts seed with
  | Ok (d_train, d_test) =>
      let a1 := alloc (ODataFrame d_train) w in
      let a2 := alloc (ODataFrame d_test) a1.2 in
      (Ok (a1.1, a2.1),
       log (c_train_test_split df ts (Some seed), Ok (r_refs a1.1 a2.1)) a2.2)
  | Err e => (Err e, log (c_train_test_split df ts (Some seed), Err e) w)
  end.
Proof.
  intros Hd. unfold train_test_split, invoke, split_frames. rewrite Hd.
  destruct (validate_shuffle_split _ _) as [[n_train n_test]|e]; [|done].
  unfold draw_permutation.
  destruct (alloc _ w) as [train w2]. cbn [fst snd].
  by destruct (alloc _ w2) as [test w3].
Qed.


Lemma omap_lookup_seq {A} (k l : list A) :
  omap (fun i => (k ++ l) !! i) (seq (length k) (length l)) = l.
Proof.
  revert k. induction l as [|x l IH]; intros k; [done|].
  simpl. rewrite list_lookup_middle by done. f_equal.
  specialize (IH (k ++ [x])). rewrite <- app_assoc, length_app in IH. simpl in IH.
  by rewrite Nat.add_1_r in IH.
Qed.

Lemma df_take_all_rows d ind :
  ind ≡ₚ seq 0 (length (rows d)) -> rows (df_take d ind) ≡ₚ rows d.
Proof.
  intros Hp. unfold df_take. simpl. rewrite Hp.
  pose proof (omap_lookup_seq [] (rows d)) as Hall. simpl in Hall. by rewrite Hall.
Qed.

Lemma df_take_length d ind :
  Forall (fun i => (i < length (rows d))%nat) ind ->
  length (rows (df_take d ind)) = length ind.
Proof.
  unfold df_take. simpl. induction 1 as [|i ind Hi _ IH]; [done|].
  simpl. destruct (lookup_lt_is_Some_2 _ _ Hi) as [r ->]. simpl. by f_equal.
Qed.

(** C2 (amended). [train_test_split(df, test_size=0.7, random_state=42)]
    on a dataframe with [n] rows raises [ValueError] when [n < 4], for the
    train set would be empty.  When [4 <= n] it returns two new frames made
    of rows of [df] taken at two disjoint sets of positions that together
    are all positions [0 .. n-1], so that the rows of the two frames
    together are exactly the rows of [df]; the test frame has
    [ceil(0.7 * n)] rows and the train frame the other [n - ceil(0.7 * n)]. *)
Theorem train_test_split_partitions df w d :
  heap w !! df = Some (ODataFrame d) ->
  ((length (rows d) < 4)%nat ->
     (train_test_split df SPLIT_PERCENTAGE (Some SPLIT_SEED) w).1
     = Err (ValueError "the resulting train set will be empty"))
  /\ ((4 <= length (rows d))%nat ->
      exists train test ind_train ind_test,
        (train_test_split df SPLIT_PERCENTAGE (Some SPLIT_SEED) w).1 = Ok (train, test)
        /\ heap w !! train = None /\ heap w !! test = None /\ train <> test
        /\ heap (train_test_split df SPLIT_PERCENTAGE (Some SPLIT_SEED) w).2 !! train
           = Some (ODataFrame (df_take d ind_train))
        /\ heap (train_test_split df SPLIT_PERCENTAGE (Some SPLIT_SEED) w).2 !! test
           = Some (ODataFrame (df_take d ind_test))
        /\ ind_test ++ ind_train ≡ₚ seq 0 (length (rows d))
        /\ (forall i, i ∈ ind_test -> i ∉ ind_train)
        /\ rows (df_take d ind_test) ++ rows (df_take d ind_train) ≡ₚ rows d
        /\ length (rows (df_take d ind_test)) = ((7 * length (rows d) + 9) / 10)%nat
        /\ length (rows (df_take d ind_train))
           = (length (rows d) - (7 * length (rows d) + 9) / 10)%nat).
Proof.
  intros Hd. rewrite (train_test_split_run _ _ _ _ _ Hd). unfold split_frames.
  rewrite validate_seven_tenths. set (n := length (rows d)).
  set (n_test := ((7 * n + 9) / 10)%nat).
  split; intros Hn.
  - rewrite decide_False by lia. done.
  - rewrite decide_True by done.
    set (perm := (rng_permutation (RandomState SPLIT_SEED) n).1).
    pose proof (rng_permutation_perm (RandomState SPLIT_SEED) n) as Hperm.
    fold perm in Hperm.
    assert (Hlen : length perm = n) by (by rewrite Hperm, length_seq).
    assert (Hnt : (n_test < n)%nat).
    { unfold n_test. pose proof (Nat.div_mod_eq (7 * n + 9) 10).
      pose proof (Nat.mod_upper_bound (7 * n + 9) 10). lia. }
    assert (Htrain : take (n - n_test) (drop n_test perm) = drop n_test perm).
    { apply take_ge. rewrite length_drop. lia. }
    rewrite Htrain. cbv zeta. cbn [fst snd].
    set (d_train := df_take d (drop n_test perm)).
    set (d_test := df_take d (take n_test perm)).
    set (a1 := alloc (ODataFrame d_train) w).
    set (a2 := alloc (ODataFrame d_test) a1.2).
    assert (Hall : take n_test perm ++ drop n_test perm ≡ₚ seq 0 n)
      by (by rewrite take_drop).
    assert (Hnd : NoDup (take n_test perm ++ drop n_test perm))
      by (rewrite Hall; apply NoDup_seq).
    assert (Hlt : Forall (fun i => (i < n)%nat) perm).
    { apply Forall_forall. intros i Hi. rewrite Hperm in Hi.
      apply elem_of_seq in Hi. lia. }
    exists a1.1, a2.1, (drop n_test perm), (take n_test perm).
    split; [done|]. split; [apply alloc_fresh|].
    assert (H2 : heap a1.2 !! a2.1 = None) by apply alloc_fresh.
    assert (H1 : heap a1.2 !! a1.1 = Some (ODataFrame d_train)) by apply alloc_new.
    split; [|split; [congruence|]].
    { eapply lookup_weaken_None; [exact H2|].
      unfold a1. rewrite alloc_heap. apply insert_subseteq, alloc_fresh. }
    rewrite heap_log.
    split; [by apply alloc_keeps|]. split; [apply alloc_new|].
    split; [done|]. split; [by apply NoDup_app in Hnd as (_ & ? & _)|].
    split.
    + change (rows (df_take d (take n_test perm)) ++ rows (df_take d (drop n_test perm)))
        with (omap (fun i => rows d !! i) (take n_test perm)
              ++ omap (fun i => rows d !! i) (drop n_test perm)).
      rewrite <- omap_app, take_drop. by apply (df_take_all_rows d perm).
    + split.
      * rewrite df_take_length by (by apply Forall_take). rewrite length_take. lia.
      * rewrite df_take_length by (by apply Forall_drop). rewrite length_drop. lia.
Qed.


(** *** The heap along a run *)

Lemma outside_call_heap {A} c (ret : A -> retval) (f : ext -> result A * ext) w :
  heap (invoke c ret (outside_op f) w).2 = heap w.
Proof. unfold invoke, outside_op. by destruct (f (outside w)). Qed.

Lemma submit_heap exp cfg w :
  heap (invoke (c_submit exp cfg) r_run
          (fun w => outside_op (submit exp cfg (heap w)) w) w).2 = heap w.
Proof. unfold invoke, outside_op. by destruct (submit _ _ _ _). Qed.

Lemma pd_read_csv_heap path w :
  match (pd_read_csv path w).1 with
  | Ok l => exists d, heap w !! l = None /\ heap (pd_read_csv path w).2 = <[l := ODataFrame d]> (heap w)
  | Err _ => True
  end.
Proof.
  unfold pd_read_csv, invoke, outside_op.
  destruct (read_csv path (outside w)) as [[d|e] e']; [|done].
  set (w1 := set_outside e' w). simpl.
  exists d. split; [apply (alloc_fresh (ODataFrame d) w1)|apply (alloc_heap (ODataFrame d) w1)].
Qed.

(** Execute a call to the outside in a run known to complete: the heap
    stays as it is. *)
Tactic Notation "skip_outside" hyp(E) "as" ident(a) ident(w1) :=
  rewrite bind_run in E;
  match type of E with
  | context [match invoke ?c ?ret (outside_op ?f) ?w0 with _ => _ end] =>
      let Hh := fresh "Hh" in
      pose proof (outside_call_heap c ret f w0) as Hh;
      destruct (invoke c ret (outside_op f) w0) as [[a|?] w1];
      cbv beta iota in E; [|discriminate E];
      simpl in Hh
  end.

(** In a run that completes, the frames returned by the split still have,
    at the end, the contents the split gave them, and the local metrics
    are the outcome of [test_model] on the content of the test frame. *)
Lemma run_all_frames s e g w :
  run_all s e = (Ok g, w) ->
  exists d d_train d_test,
    split_frames d SPLIT_PERCENTAGE SPLIT_SEED = Ok (d_train, d_test)
    /\ heap w !! g_df g = Some (ODataFrame d)
    /\ heap w !! g_train_ds g = Some (ODataFrame d_train)
    /\ heap w !! g_test_ds g = Some (ODataFrame d_test)
    /\ test_model_outcome (g_fitted_model g) d_test = Ok (g_local_metrics g).
Proof.
  intros E. unfold run_all, notebook in E.
  rewrite bind_run in E. cbn [invoke] in E. cbv beta iota zeta in E.
  skip_outside E as ws w1.
  rewrite bind_run, print_run in E. cbv beta iota in E.
  rewrite bind_run in E.
  match type of E with context [match pd_read_csv ?p ?w0 with _ => _ end] =>
    pose proof (pd_read_csv_heap p w0) as Hh2;
    destruct (pd_read_csv p w0) as [[df|ex] w2]; [|done] end.
  simpl in Hh2. destruct Hh2 as (d & Hfresh & Hh2).
  assert (Hdf : heap w2 !! df = Some (ODataFrame d)) by (rewrite Hh2; apply lookup_insert_eq).
  cbv beta iota in E. rewrite bind_run, (train_test_split_run _ _ _ _ _ Hdf) in E.
  destruct (split_frames d SPLIT_PERCENTAGE SPLIT_SEED) as [[d_train d_test]|ex] eqn:Hsplit;
    [|done].
  cbv beta iota zeta in E. cbn [fst snd] in E.
  set (a1 := alloc (ODataFrame d_train) w2) in *.
  set (a2 := alloc (ODataFrame d_test) a1.2) in *.
  set (w3 := log _ a2.2) in *.
  assert (H3 : heap w3 !! df = Some (ODataFrame d)
               /\ heap w3 !! a1.1 = Some (ODataFrame d_train)
               /\ heap w3 !! a2.1 = Some (ODataFrame d_test)).
  { unfold w3. rewrite heap_log. split; [by do 2 apply alloc_keeps|].
    split; [apply alloc_keeps, alloc_new|apply alloc_new]. }
  clearbody w3. destruct H3 as (H3d & H3tr & H3te).
  skip_outside E as u1 w4.
  skip_outside E as exp w5.
  rewrite bind_run in E.
  match type of E with context [match ?m w5 with _ => _ end] =>
    pose proof (submit_heap exp (automl_config a1.1 a2.1) w5) as Hh6;
    destruct (m w5) as [[run|?] w6]; cbv beta iota in E; [|discriminate E] end.
  simpl in Hh6.
  skip_outside E as u2 w7.
  skip_outside E as u3 w8.
  skip_outside E as out w9. destruct out as [best_run fitted_model]. cbv beta iota in E.
  pose proof (get_metrics_nodup best_run w9) as Hnd.
  skip_outside E as brm w10. simpl in Hnd.
  rewrite bind_run in E.
  assert (H10 : heap w10 = heap w3) by congruence.
  assert (Hte : heap w10 !! a2.1 = Some (ODataFrame d_test)) by (by rewrite H10).
  destruct (test_model_refines fitted_model a2.1 w10 d_test Hte) as [Hres Hsub].
  destruct (test_model fitted_model a2.1 w10) as [[lm|?] w11];
    cbv beta iota in E; [|discriminate E].
  simpl in Hres, Hsub.
  assert (Hlm : NoDup (dict_keys lm)).
  { symmetry in Hres. unfold test_model_outcome in Hres.
    repeat match type of Hres with
           | match ?x with _ => _ end = _ => destruct x; [|discriminate Hres]
           end.
    injection Hres as <-. apply local_metrics_nodup. }
  rewrite bind_run, print_metrics_run in E by done. cbv beta iota in E.
  injection E as <- <-. simpl.
  exists d, d_train, d_test. split; [done|].
  rewrite H10 in Hsub.
  split; [exact (lookup_weaken _ _ _ _ H3d Hsub)|].
  split; [exact (lookup_weaken _ _ _ _ H3tr Hsub)|].
  split; [exact (lookup_weaken _ _ _ _ H3te Hsub)|]. done.
Qed.

(** *** Claims about a run of the whole notebook *)

(** C5. Whenever the program asks a run for its output, it has before
    that submitted the configuration, obtained that very run, and called
    [wait_for_completion] on it, and that call has returned: the fitted
    model is never retrieved from a run the program has not waited for. *)
Theorem get_output_after_wait_for_completion s e i r r0 :
  trace (run_all s e).2 !! i = Some (c_get_output r, r0) ->
  exists j k exp cfg,
    (j < k < i)%nat
    /\ trace (run_all s e).2 !! j = Some (c_submit exp cfg, Ok (r_run r))
    /\ trace (run_all s e).2 !! k = Some (c_wait_for_completion r true, Ok r_None).
Proof.
  intros Hi.
  destruct (run_all_lookup s e)
    as (g & y & X & y_pred & auc & acc & rec & f1 & _ & Hlook).
  destruct (Hlook _ _ _ Hi) as ([r1 Hs] & Hbefore & _).
  apply script_get_output in Hs as [-> ->].
  exists 7%nat, 8%nat, (g_automl_experiment g), (automl_config (g_train_ds g) (g_test_ds g)).
  split; [lia|]. by rewrite !Hbefore by lia.
Qed.


(** C7. Nothing handles an exception.  [test_model] raises an exception
    exactly when one of the library calls it makes raises that exception;
    the same holds for the whole notebook; and a call that raised is the
    last call of the run. *)
Theorem exceptions_propagate_unhandled :
  (forall m l w, exists new,
     trace (test_model m l w).2 = trace w ++ new
     /\ forall ex, (test_model m l w).1 = Err ex <-> exists c, (c, Err ex) ∈ new)
  /\ (forall s e ex,
        (run_all s e).1 = Err ex <-> exists c, (c, Err ex) ∈ trace (run_all s e).2)
  /\ (forall s e i c ex,
        trace (run_all s e).2 !! i = Some (c, Err ex) ->
        (run_all s e).1 = Err ex /\ length (trace (run_all s e).2) = S i).
Proof.
  split; [|split].
  - intros m l w.
    destruct (test_model_history m l w)
      as (y & X & y_pred & auc & acc & rec & f1 & new & Ht & _ & _ & Hr).
    exists new. split; [done|]. intros ex.
    pose proof (test_model_script_returned m l y X y_pred auc acc rec f1) as Hok.
    destruct (test_model m l w) as [[d|ex0] w']; simpl in *.
    + destruct Hr as [_ ->]. split; [done|]. intros [c Hin].
      apply list_elem_of_lookup in Hin as [i Hi].
      by apply (Forall_lookup_1 _ _ _ _ Hok) in Hi.
    + rewrite (stopped_raises _ _ _ Hok Hr). split; congruence.
  - intros s e ex.
    destruct (run_all_history s e)
      as (g & y & X & y_pred & auc & acc & rec & f1 & _ & Hr).
    pose proof (script_returned g y X y_pred auc acc rec f1) as Hok.
    destruct (run_all s e) as [[g'|ex0] w']; simpl in *.
    + destruct Hr as (_ & -> & _). split; [done|]. intros [c Hin].
      apply list_elem_of_lookup in Hin as [i Hi].
      by apply (Forall_lookup_1 _ _ _ _ Hok) in Hi.
    + rewrite (stopped_raises _ _ _ Hok Hr). split; congruence.
  - intros s e i c ex Hi.
    destruct (run_all_lookup s e) as (g & y & X & y_pred & auc & acc & rec & f1 & _ & Hlook).
    destruct (Hlook _ _ _ Hi) as (_ & _ & [Hok|(ex' & [= <-] & Hres & Hlen)]); done.
Qed.

(** C9. [test_model] needs a 'target' column: on a dataframe without
    one it raises [KeyError]; on a dataframe with one, the lookup
    [test_ds['target']] and the drop of ['target'] both return, each with
    a new object.  The label it looks up is the [label_column_name] of
    every configuration the program constructs. *)
Theorem test_model_needs_target_column m test_ds w d :
  heap w !! test_ds = Some (ODataFrame d) ->
  ("target" ∉ columns d -> (test_model m test_ds w).1 = Err (KeyError "target"))
  /\ ("target" ∈ columns d ->
        exists y X rest,
          trace (test_model m test_ds w).2
          = trace w ++ (c_getitem test_ds "target", Ok (r_ref y))
                    :: (c_drop test_ds ["target"], Ok (r_ref X)) :: rest
          /\ heap w !! y = None /\ heap w !! X = None)
  /\ (forall s e i j cfg r0 l k r1,
        trace (run_all s e).2 !! i = Some (c_AutoMLConfig cfg, r0) ->
        trace (run_all s e).2 !! j = Some (c_getitem l k, r1) ->
        label_column_name cfg = k /\ k = "target").
Proof.
  intros Hl. split; [|split].
  - intros Hno. destruct (test_model_refines m test_ds w d Hl) as [-> _].
    unfold test_model_outcome. by rewrite df_getitem_missing.
  - by apply test_model_first_calls.
  - intros s e i j cfg r0 l k r1 Hi Hj.
    destruct (run_all_lookup s e) as (g & y & X & y_pred & auc & acc & rec & f1 & _ & Hlook).
    destruct (Hlook _ _ _ Hi) as ([? Hs1] & _).
    destruct (Hlook _ _ _ Hj) as ([? Hs2] & _).
    apply script_AutoMLConfig in Hs1 as [_ ->].
    apply script_getitem in Hs2 as (_ & _ & ->). done.
Qed.

(** * Further properties *)

(** *** Relations kept by every step *)

#[local] Instance quiet_preorder : PreOrder quiet.
Proof.
  split.
  - intros w. by repeat split.
  - intros w1 w2 w3 (H1 & H2 & H3 & H4) (K1 & K2 & K3 & K4).
    repeat split; [congruence..|auto].
Qed.

#[local] Instance tidy_preorder : PreOrder tidy.
Proof.
  split.
  - intros w. by split.
  - intros w1 w2 w3 (H1 & H2) (K1 & K2). split; [congruence|auto].
Qed.

Lemma quiet_tidy w w' : quiet w w' -> tidy w w'.
Proof. by intros (_ & H2 & _ & H4). Qed.

Lemma keeps_quiet_tidy {A} (m : M A) : keeps quiet m -> keeps tidy m.
Proof. intros H w. apply quiet_tidy, H. Qed.

Lemma keeps_ret {A} (R : World -> World -> Prop) `{!Reflexive R} (a : A) :
  keeps R (mret a).
Proof. intros w. simpl. reflexivity. Qed.

Lemma keeps_bind {A B} (R : World -> World -> Prop) `{!Transitive R}
    (m : M A) (f : A -> M B) :
  keeps R m -> (forall a, keeps R (f a)) -> keeps R (m ≫= f).
Proof.
  intros Hm Hf w. rewrite bind_run. specialize (Hm w).
  destruct (m w) as [[a|e] w1]; simpl in *; [|done].
  etrans; [exact Hm|apply Hf].
Qed.

Lemma keeps_for_each {A} (R : World -> World -> Prop) `{!PreOrder R}
    (l : list A) (body : A -> M unit) :
  (forall x, x ∈ l -> keeps R (body x)) -> keeps R (for_each l body).
Proof.
  induction l as [|x l IH]; intros Hb; simpl.
  - apply keeps_ret, _.
  - apply keeps_bind; [apply _|apply Hb, list_elem_of_here|].
    intros _. apply IH. intros y Hy. by apply Hb, list_elem_of_further.
Qed.

Lemma print_ok_other c r : (forall t, c <> c_print t) -> print_ok (c, r).
Proof. intros Hc t Ht. by destruct (Hc t). Qed.

Lemma quiet_log c r w w' :
  (forall t, c <> c_print t) -> quiet w w' -> quiet w (log (c, r) w').
Proof.
  intros Hc (H1 & H2 & H3 & H4). repeat split; try done.
  intros Hw. simpl. apply Forall_app; split; [auto|].
  apply Forall_singleton. by apply print_ok_other.
Qed.

Lemma tidy_log c r w w' :
  (forall t, c <> c_print t) -> tidy w w' -> tidy w (log (c, r) w').
Proof.
  intros Hc (H2 & H4). split; [done|].
  intros Hw. simpl. apply Forall_app; split; [auto|].
  apply Forall_singleton. by apply print_ok_other.
Qed.

Lemma keeps_quiet_invoke {A} c (ret : A -> retval) op :
  (forall t, c <> c_print t) -> (forall w, quiet w (op w).2) ->
  keeps quiet (invoke c ret op).
Proof.
  intros Hc Hop w. unfold invoke. specialize (Hop w).
  destruct (op w) as [r w']. by apply quiet_log.
Qed.

Lemma keeps_tidy_invoke {A} c (ret : A -> retval) op :
  (forall t, c <> c_print t) -> (forall w, tidy w (op w).2) ->
  keeps tidy (invoke c ret op).
Proof.
  intros Hc Hop w. unfold invoke. specialize (Hop w).
  destruct (op w) as [r w']. by apply tidy_log.
Qed.

Lemma quiet_alloc o w : quiet w (alloc o w).2.
Proof. by repeat split. Qed.

Lemma quiet_set_heap h w : quiet w (set_heap h w).
Proof. by repeat split. Qed.

Lemma getitem_quiet df key : keeps quiet (getitem df key).
Proof.
  apply keeps_quiet_invoke; [done|]. intros w.
  destruct (heap w !! df) as [[d| |]|]; try reflexivity.
  destruct (df_getitem d key); [apply quiet_alloc|reflexivity].
Qed.

Lemma drop_columns_quiet df labels : keeps quiet (drop_columns df labels).
Proof.
  apply keeps_quiet_invoke; [done|]. intros w.
  destruct (heap w !! df) as [[d| |]|]; try reflexivity.
  destruct (df_drop d labels); [apply quiet_alloc|reflexivity].
Qed.

Lemma model_predict_quiet m X : keeps quiet (model_predict m X).
Proof.
  apply keeps_quiet_invoke; [done|]. intros w.
  destruct (heap w !! X) as [o|]; [|reflexivity].
  destruct (predict m o) as [[a|e] o']; [|apply quiet_set_heap].
  etrans; [apply quiet_set_heap|apply quiet_alloc].
Qed.

Lemma metric_quiet c f y yp :
  (forall t, c y yp <> c_print t) -> keeps quiet (metric c f y yp).
Proof.
  intros Hc. apply keeps_quiet_invoke; [done|]. intros w.
  destruct (heap w !! y), (heap w !! yp); reflexivity.
Qed.

Lemma test_model_quiet m l : keeps quiet (test_model m l).
Proof.
  unfold test_model.
  apply keeps_bind; [apply _|apply getitem_quiet|intros y].
  apply keeps_bind; [apply _|apply drop_columns_quiet|intros X].
  apply keeps_bind; [apply _|apply model_predict_quiet|intros y_pred].
  apply keeps_bind; [apply _|by apply metric_quiet|intros auc].
  apply keeps_bind; [apply _|by apply metric_quiet|intros acc].
  apply keeps_bind; [apply _|by apply metric_quiet|intros rec].
  apply keeps_bind; [apply _|by apply metric_quiet|intros f1].
  apply keeps_ret, _.
Qed.

Lemma tidy_set_outside e w : tidy w (set_outside e w).
Proof. by split. Qed.

Lemma outside_op_tidy {A} (f : ext -> result A * ext) w : tidy w (outside_op f w).2.
Proof. unfold outside_op. destruct (f (outside w)). apply tidy_set_outside. Qed.

Lemma print_tidy args sep : keeps tidy (print args sep).
Proof.
  intros w. rewrite print_run. split; [done|]. intros Hw. simpl.
  apply Forall_app; split; [done|]. apply Forall_singleton. by intros t _.
Qed.

Lemma pd_read_csv_tidy path : keeps tidy (pd_read_csv path).
Proof.
  apply keeps_tidy_invoke; [done|]. intros w.
  pose proof (outside_op_tidy (read_csv path) w) as Ht.
  destruct (outside_op (read_csv path) w) as [[d|e] w']; [|done].
  simpl in Ht. etrans; [exact Ht|]. apply quiet_tidy, quiet_alloc.
Qed.

(** With a seed the split leaves the global generator alone. *)
Lemma train_test_split_seeded_tidy df ts seed :
  keeps tidy (train_test_split df ts (Some seed)).
Proof.
  apply keeps_tidy_invoke; [done|]. intros w.
  destruct (heap w !! df) as [[d| |]|]; try reflexivity.
  destruct (validate_shuffle_split _ _) as [[n_train n_test]|e]; [|reflexivity].
  unfold draw_permutation.
  destruct (alloc _ w) as [train w2] eqn:E1.
  destruct (alloc _ w2) as [test w3] eqn:E2.
  pose proof (quiet_alloc (ODataFrame (df_take d (take n_train (drop n_test
                 (rng_permutation (RandomState seed) (length (rows d))).1)))) w) as Q1.
  rewrite E1 in Q1.
  pose proof (quiet_alloc (ODataFrame (df_take d (take n_test
                 (rng_permutation (RandomState seed) (length (rows d))).1))) w2) as Q2.
  rewrite E2 in Q2. simpl in *. apply quiet_tidy. by etrans.
Qed.

Lemma print_metrics_tidy brm lm : keeps tidy (print_metrics brm lm).
Proof.
  unfold print_metrics.
  apply keeps_bind; [apply _|apply print_tidy|intros _].
  apply keeps_bind; [apply _| |intros _].
  { apply keeps_for_each; [apply _|]. intros k _.
    apply keeps_bind; [apply _|by intros w|intros v]. apply print_tidy. }
  apply keeps_bind; [apply _|apply print_tidy|intros _].
  apply keeps_for_each; [apply _|]. intros k _.
  apply keeps_bind; [apply _|by intros w|intros v]. apply print_tidy.
Qed.

Lemma notebook_tidy : keeps tidy notebook.
Proof.
  unfold notebook.
  apply keeps_bind; [apply _|by apply keeps_tidy_invoke|intros _].
  apply keeps_bind; [apply _| |intros ws].
  { apply keeps_tidy_invoke; [done|]. intros w. apply outside_op_tidy. }
  apply keeps_bind; [apply _|apply print_tidy|intros _].
  apply keeps_bind; [apply _|apply pd_read_csv_tidy|intros df].
  apply keeps_bind; [apply _|apply train_test_split_seeded_tidy|intros [train_ds test_ds]].
  cbv zeta.
  apply keeps_bind; [apply _| |intros _].
  { apply keeps_tidy_invoke; [done|]. intros w. apply outside_op_tidy. }
  apply keeps_bind; [apply _| |intros exp].
  { apply keeps_tidy_invoke; [done|]. intros w. apply outside_op_tidy. }
  apply keeps_bind; [apply _| |intros run].
  { apply keeps_tidy_invoke; [done|]. intros w. apply outside_op_tidy. }
  apply keeps_bind; [apply _| |intros _].
  { apply keeps_tidy_invoke; [done|]. intros w. apply outside_op_tidy. }
  apply keeps_bind; [apply _| |intros _].
  { apply keeps_tidy_invoke; [done|]. intros w. apply outside_op_tidy. }
  apply keeps_bind; [apply _| |intros [best_run fitted_model]].
  { apply keeps_tidy_invoke; [done|]. intros w. apply outside_op_tidy. }
  apply keeps_bind; [apply _| |intros brm].
  { apply keeps_tidy_invoke; [done|]. intros w. apply outside_op_tidy. }
  apply keeps_bind; [apply _|apply keeps_quiet_tidy, test_model_quiet|intros lm].
  apply keeps_bind; [apply _|apply print_metrics_tidy|intros _].
  apply keeps_ret, _.
Qed.

Lemma run_all_prints_ok s e : Forall print_ok (trace (run_all s e).2).
Proof. by apply (notebook_tidy (mkWorld ∅ s e [] [])). Qed.

(** The history of a run is the script cut at some call, followed, when
    the run raised, by that call; the call that raised is no [print]. *)
Lemma run_all_shape s e :
  exists g y X y_pred auc acc rec f1 k tail,
    trace (run_all s e).2 = take k (script g y X y_pred auc acc rec f1) ++ tail
    /\ stdout (run_all s e).2 = omap printed (trace (run_all s e).2)
    /\ ((run_all s e).1 = Ok g
        /\ tail = [] /\ (length (script g y X y_pred auc acc rec f1) <= k)%nat
        /\ g_automl_config g = automl_config (g_train_ds g) (g_test_ds g)
        /\ g_local_metrics g = local_metrics_dict auc acc rec f1
        \/ exists ex c r0,
             (run_all s e).1 = Err ex
             /\ script g y X y_pred auc acc rec f1 !! k = Some (c, r0)
             /\ (forall t, c <> c_print t)
             /\ tail = [(c, Err ex)]).
Proof.
  destruct (run_all_history s e) as (g & y & X & y_pred & auc & acc & rec & f1 & Hout & Hr).
  pose proof (run_all_prints_ok s e) as Hp.
  exists g, y, X, y_pred, auc, acc, rec, f1.
  destruct (run_all s e) as [[g'|ex] w]; cbn [fst snd] in *.
  - destruct Hr as (-> & Htr & Hc & Hm).
    exists (length (script g y X y_pred auc acc rec f1)), [].
    rewrite take_ge, app_nil_r by done. split; [done|]. split; [done|]. by left.
  - destruct Hr as (k & c & r0 & Hk & Htr). exists k, [(c, Err ex)].
    split; [done|]. split; [done|]. right. exists ex, c, r0.
    split; [done|]. split; [done|]. split; [|done].
    intros t ->. rewrite Htr, Forall_app, Forall_singleton in Hp.
    destruct Hp as [_ Hp]. by specialize (Hp t eq_refl).
Qed.

(** Reading one entry of a run against the script: the entries before it
    are the script's; it is the script's entry, or it raised and ends the
    run; and when it returned and the script goes on, so does the run. *)
Lemma run_all_entry s e :
  exists g y X y_pred auc acc rec f1,
    stdout (run_all s e).2 = omap printed (trace (run_all s e).2)
    /\ (forall i c r,
          trace (run_all s e).2 !! i = Some (c, r) ->
          (forall j, (j < i)%nat ->
             trace (run_all s e).2 !! j = script g y X y_pred auc acc rec f1 !! j)
          /\ (script g y X y_pred auc acc rec f1 !! i = Some (c, r)
              /\ (forall c' r0, script g y X y_pred auc acc rec f1 !! S i = Some (c', r0) ->
                    exists r', trace (run_all s e).2 !! S i = Some (c', r')
                               /\ (r' = r0 \/ (exists ex, r' = Err ex) /\ forall t, c' <> c_print t))
              \/ exists ex r0,
                   r = Err ex
                   /\ script g y X y_pred auc acc rec f1 !! i = Some (c, r0)
                   /\ (run_all s e).1 = Err ex
                   /\ length (trace (run_all s e).2) = S i))
    /\ (forall g', (run_all s e).1 = Ok g' ->
          g' = g /\ trace (run_all s e).2 = script g y X y_pred auc acc rec f1
          /\ g_automl_config g = automl_config (g_train_ds g) (g_test_ds g)
          /\ g_local_metrics g = local_metrics_dict auc acc rec f1).
Proof.
  destruct (run_all_shape s e)
    as (g & y & X & y_pred & auc & acc & rec & f1 & k & tail & Htr & Hout & Hcase).
  exists g, y, X, y_pred, auc, acc, rec, f1.
  set (scr := script g y X y_pred auc acc rec f1) in *.
  split; [done|]. split.
  - intros i c r Hi. rewrite Htr in *.
    destruct Hcase as [(Hres & -> & Hk & _)|(ex & c0 & r0 & Hres & Hk & Hnp & ->)].
    + rewrite app_nil_r, take_ge in * by done.
      split; [done|]. left. split; [done|]. intros c' r0 Hs. by eauto.
    + pose proof (lookup_lt_Some _ _ _ Hk) as Hlen.
      assert (Hlk : length (take k scr) = k) by (rewrite length_take; lia).
      destruct (decide (i < k)%nat) as [Hlt|Hge].
      * rewrite lookup_app_l in Hi by lia. rewrite lookup_take_lt in Hi by done.
        split.
        { intros j Hj. rewrite lookup_app_l by lia. apply lookup_take_lt. lia. }
        left. split; [done|]. intros c' r1 Hs.
        destruct (decide (S i < k)%nat) as [Hlt'|Hge'].
        -- exists r1. split; [|by left].
           rewrite lookup_app_l by lia. by rewrite lookup_take_lt.
        -- assert (S i = k) as Heq by lia. rewrite Heq in Hs. rewrite Hs in Hk.
           injection Hk as -> ->. exists (Err ex). split; [|right; by eauto].
           rewrite lookup_app_r by lia. rewrite Hlk, Heq, Nat.sub_diag. done.
      * rewrite lookup_app_r in Hi by lia. rewrite Hlk in Hi.
        destruct (i - k)%nat as [|n] eqn:Hik; [|by destruct n].
        injection Hi as <- <-. assert (i = k) as -> by lia.
        split.
        { intros j Hj. rewrite lookup_app_l by lia. apply lookup_take_lt. lia. }
        right. exists ex, r0. split; [done|]. split; [done|]. split; [done|].
        rewrite length_app, Hlk. simpl. lia.
  - intros g' Hg. destruct Hcase as [(Hres & -> & Hk & Hc & Hm)|(ex & ? & ? & Hres & _)].
    + rewrite Hres in Hg. injection Hg as <-.
      rewrite Htr, app_nil_r, take_ge by done. done.
    + rewrite Hres in Hg. discriminate Hg.
Qed.

(** *** Further properties of a run of the whole notebook *)


(** X2. At most one job is submitted in a run, as the eighth call, and
    only after the dataset was read from its path, split with test size 0.7
    and seed 42, the configuration built from the two frames of that split
    was accepted, and the experiment 'automl-classification' was created in
    the workspace obtained from the settings file: the job is submitted to
    that experiment with that configuration. *)
Theorem one_job_per_run s e i exp cfg r :
  trace (run_all s e).2 !! i = Some (c_submit exp cfg, r) ->
  i = 7%nat
  /\ exists ws df train_ds test_ds,
       cfg = automl_config train_ds test_ds
       /\ trace (run_all s e).2 !! 1%nat
          = Some (c_Workspace_from_config "../notebooks-settings/config.json",
                  Ok (r_workspace ws))
       /\ trace (run_all s e).2 !! 3%nat = Some (c_read_csv DATASET_PATH, Ok (r_ref df))
       /\ trace (run_all s e).2 !! 4%nat
          = Some (c_train_test_split df SPLIT_PERCENTAGE (Some SPLIT_SEED),
                  Ok (r_refs train_ds test_ds))
       /\ trace (run_all s e).2 !! 5%nat = Some (c_AutoMLConfig cfg, Ok r_None)
       /\ trace (run_all s e).2 !! 6%nat
          = Some (c_Experiment ws "automl-classification", Ok (r_experiment exp)).
Proof.
  intros Hi.
  destruct (run_all_entry s e)
    as (g & y & X & y_pred & auc & acc & rec & f1 & _ & Hent & _).
  destruct (Hent _ _ _ Hi) as [Hbefore Hcase].
  assert (Hs : exists r0, script g y X y_pred auc acc rec f1 !! i = Some (c_submit exp cfg, r0)).
  { destruct Hcase as [[Hs _]|(ex & r0 & _ & Hs & _)]; by eauto. }
  destruct Hs as [r0 Hs]. script_inv Hs. injection Hs as <- <- _.
  split; [done|].
  exists (g_ws g), (g_df g), (g_train_ds g), (g_test_ds g).
  split; [done|]. by rewrite !Hbefore by lia.
Qed.

(** The notebook's own steps never draw from NumPy's global generator:
    the split is the only step that shuffles, and it is seeded.  With
    library calls that leave the generator alone, as the interfaces here
    have it, the generator is at the end of every run in the state it
    started in. *)
Lemma run_leaves_global_generator_untouched s e :
  np_random (run_all s e).2 = s.
Proof. by apply (notebook_tidy (mkWorld ∅ s e [] [])). Qed.

(** X4. Output is all or nothing: a run that raises has printed either
    nothing or the workspace line of cell 2 alone, never a heading or a
    metric line. *)
Theorem failed_run_prints_no_metrics s e ex :
  (run_all s e).1 = Err ex ->
  stdout (run_all s e).2 = []
  \/ exists ws,
       trace (run_all s e).2 !! 1%nat
       = Some (c_Workspace_from_config "../notebooks-settings/config.json",
               Ok (r_workspace ws))
       /\ stdout (run_all s e).2 = [workspace_line ws].
Proof.
  intros Hex.
  destruct (run_all_shape s e)
    as (g & y & X & y_pred & auc & acc & rec & f1 & k & tail & Htr & Hout & Hcase).
  destruct Hcase as [(Hres & _)|(ex' & c & r0 & _ & Hk & Hnp & ->)];
    [by rewrite Hres in Hex|].
  rewrite Hout, Htr. clear Hout Htr Hex.
  unfold script, setup_script, test_model_script in *. simpl in Hk.
  do 19 (try match type of Hk with
             | (_ :: _) !! ?n = _ =>
                 destruct n; simpl in Hk;
                 [injection Hk as <- _; try (by destruct (Hnp _ eq_refl));
                  first [by left | right; by exists (g_ws g)]|]
             end).
  apply print_metrics_script_lookup in Hk as [t ->]. by destruct (Hnp t).
Qed.

(** What the two frames of a seeded 70/30 split are, for any seed. *)
Lemma split_frames_seven_tenths d seed d_train d_test :
  split_frames d SPLIT_PERCENTAGE seed = Ok (d_train, d_test) ->
  (4 <= length (rows d))%nat
  /\ columns d_train = columns d /\ columns d_test = columns d
  /\ rows d_test ++ rows d_train ≡ₚ rows d
  /\ length (rows d_test) = ((7 * length (rows d) + 9) / 10)%nat
  /\ length (rows d_train) = (length (rows d) - (7 * length (rows d) + 9) / 10)%nat.
Proof.
  unfold split_frames. rewrite validate_seven_tenths.
  set (n := length (rows d)). set (n_test := ((7 * n + 9) / 10)%nat).
  destruct (decide (4 <= n)%nat) as [Hn|]; [|done].
  set (perm := (rng_permutation (RandomState seed) n).1).
  pose proof (rng_permutation_perm (RandomState seed) n) as Hperm. fold perm in Hperm.
  assert (Hlen : length perm = n) by (by rewrite Hperm, length_seq).
  assert (Hnt : (n_test < n)%nat).
  { unfold n_test. pose proof (Nat.div_mod_eq (7 * n + 9) 10).
    pose proof (Nat.mod_upper_bound (7 * n + 9) 10). lia. }
  assert (Htrain : take (n - n_test) (drop n_test perm) = drop n_test perm).
  { apply take_ge. rewrite length_drop. lia. }
  rewrite Htrain. intros [= <- <-].
  assert (Hlt : Forall (fun i => (i < n)%nat) perm).
  { apply Forall_forall. intros i Hi. rewrite Hperm in Hi.
    apply elem_of_seq in Hi. lia. }
  split; [done|]. split; [done|]. split; [done|]. split.
  - change (rows (df_take d (take n_test perm)) ++ rows (df_take d (drop n_test perm)))
      with (omap (fun i => rows d !! i) (take n_test perm)
            ++ omap (fun i => rows d !! i) (drop n_test perm)).
    rewrite <- omap_app, take_drop. by apply (df_take_all_rows d perm).
  - split.
    + rewrite df_take_length by (by apply Forall_take). rewrite length_take. lia.
    + rewrite df_take_length by (by apply Forall_drop). rewrite length_drop. lia.
Qed.

(** X5. In a run that completes, the training data and the validation
    data of the configuration are, at the end, two frames with the columns
    of the dataset frame whose rows together are exactly the rows of the
    dataset frame [df]; the dataset has at least four rows, the validation
    frame holds [ceil(0.7 * n)] of them and the training frame the rest.
    The sizes are those of scikit-learn's documented split. *)
Theorem completed_run_partitions_the_dataset s e g w :
  run_all s e = (Ok g, w) ->
  exists d d_train d_test,
    heap w !! g_df g = Some (ODataFrame d)
    /\ heap w !! training_data (g_automl_config g) = Some (ODataFrame d_train)
    /\ heap w !! validation_data (g_automl_config g) = Some (ODataFrame d_test)
    /\ (4 <= length (rows d))%nat
    /\ columns d_train = columns d /\ columns d_test = columns d
    /\ rows d_test ++ rows d_train ≡ₚ rows d
    /\ length (rows d_test) = ((7 * length (rows d) + 9) / 10)%nat
    /\ length (rows d_train) = (length (rows d) - (7 * length (rows d) + 9) / 10)%nat.
Proof.
  intros Hrun.
  destruct (run_all_frames s e g w Hrun)
    as (d & d_train & d_test & Hs & Hd & Htr & Hte & _).
  destruct (run_all_entry s e) as (g0 & ? & ? & ? & ? & ? & ? & ? & _ & _ & Hdone).
  destruct (Hdone g) as (-> & _ & Hcfg & _); [by rewrite Hrun|].
  exists d, d_train, d_test. rewrite Hcfg. cbn [training_data validation_data automl_config].
  split; [done|]. split; [done|]. split; [done|].
  by apply (split_frames_seven_tenths d SPLIT_SEED).
Qed.

(** *** Further properties of [test_model] *)

#[local] Instance reads_only_preorder : PreOrder reads_only.
Proof.
  split.
  - intros w. split; [done|]. exists []. by rewrite app_nil_r.
  - intros w1 w2 w3 [H1 [r1 T1]] [H2 [r2 T2]]. split; [congruence|].
    exists (r1 ++ r2). by rewrite T2, T1, app_assoc.
Qed.

Lemma metric_reads_only c f y yp : keeps reads_only (metric c f y yp).
Proof.
  intros w. unfold metric, invoke.
  destruct (heap w !! y), (heap w !! yp); (split; [done|by eexists]).
Qed.

(** X6. The estimator never sees the labels.  On a dataframe with a
    'target' column, the third call of [test_model] is [predict] on a new
    object, not on [test_ds]; that object holds the content of [test_ds]
    without its 'target' columns when [predict] is called, and afterwards
    what [predict] left in it.  When [predict] returns, its predictions are
    one more new object; when it raises, so does [test_model]. *)
Theorem predict_sees_no_label m test_ds w d :
  heap w !! test_ds = Some (ODataFrame d) ->
  "target" ∈ columns d ->
  exists X dX r,
    df_drop d ["target"] = Ok dX
    /\ ("target" ∉ columns dX)
    /\ columns dX = filter (fun c => c <> "target") (columns d)
    /\ heap w !! X = None
    /\ trace (test_model m test_ds w).2 !! (length (trace w) + 2)%nat
       = Some (c_predict m X, r)
    /\ heap (test_model m test_ds w).2 !! X = Some (predict m (ODataFrame dX)).2
    /\ match (predict m (ODataFrame dX)).1 with
       | Ok preds =>
           exists y_pred, r = Ok (r_ref y_pred)
             /\ heap w !! y_pred = None /\ y_pred <> X
             /\ heap (test_model m test_ds w).2 !! y_pred = Some (OArray preds)
       | Err ex => r = Err ex /\ (test_model m test_ds w).1 = Err ex
       end.
Proof.
  intros Hl Ht.
  destruct (df_getitem_present d "target" Ht) as [oy Hy].
  pose proof (df_drop_present d "target" Ht) as HX.
  destruct (test_model m test_ds w) as [res w'] eqn:E. unfold test_model in E.
  rewrite bind_run, getitem_run, Hl, Hy in E. cbv beta iota in E.
  set (y := (alloc oy w).1) in *. set (w1 := log _ (alloc oy w).2) in *.
  assert (Hw1 : heap w ⊆ heap w1).
  { unfold w1. rewrite heap_log, alloc_heap. apply insert_subseteq, alloc_fresh. }
  rewrite bind_run, drop_columns_run, (lookup_weaken _ _ _ _ Hl Hw1), HX in E.
  cbv beta iota in E.
  set (dX := keep_columns _ d) in *.
  set (X := (alloc (ODataFrame dX) w1).1) in *.
  set (w2 := log _ (alloc (ODataFrame dX) w1).2) in *.
  assert (T2 : trace w2 = trace w ++ [(c_getitem test_ds "target", Ok (r_ref y));
                                       (c_drop test_ds ["target"], Ok (r_ref X))]).
  { unfold w2, w1. simpl. by rewrite <- app_assoc. }
  assert (HX1 : heap w1 !! X = None) by apply alloc_fresh.
  assert (HX0 : heap w !! X = None) by (by eapply lookup_weaken_None).
  assert (HX2 : heap w2 !! X = Some (ODataFrame dX)) by apply alloc_new.
  assert (Hw2 : heap w2 = <[X := ODataFrame dX]> (heap w1)) by reflexivity.
  assert (Hcols : columns dX = filter (fun c => c <> "target") (columns d))
    by (by apply df_drop_columns).
  exists X, dX.
  rewrite bind_run, (model_predict_run _ _ _ _ HX2) in E. cbv zeta in E.
  clearbody w2.
  set (w3 := set_heap (<[X := (predict m (ODataFrame dX)).2]> (heap w2)) w2) in *.
  assert (H3 : heap w3 = <[X := (predict m (ODataFrame dX)).2]> (heap w1)).
  { unfold w3. change (heap (set_heap ?h _)) with h. by rewrite Hw2, insert_insert_eq. }
  assert (T3 : trace w3 = trace w2) by reflexivity.
  clearbody w3.
  assert (Hidx : forall en rest,
            (trace w2 ++ [en] ++ rest) !! (length (trace w) + 2)%nat = Some en).
  { intros en rest. rewrite T2, <- app_assoc. rewrite lookup_app_r by lia.
    replace (length (trace w) + 2 - length (trace w))%nat with 2%nat by lia. done. }
  destruct (predict m (ODataFrame dX)) as [[preds|ex] X'] eqn:Hp; cbn [fst snd] in *;
    cbv beta iota in E.
  - set (y_pred := (alloc (OArray preds) w3).1) in *.
    set (w4 := log _ (alloc (OArray preds) w3).2) in *.
    assert (H4 : heap w4 = <[y_pred := OArray preds]> (heap w3)) by reflexivity.
    assert (Hf4 : heap w3 !! y_pred = None) by apply alloc_fresh.
    assert (T4 : trace w4 = trace w2 ++ [(c_predict m X, Ok (r_ref y_pred))]).
    { unfold w4. simpl. by rewrite T3. }
    clearbody w4.
    match type of E with
    | ?k ?w0 = _ => assert (HR : keeps reads_only k)
    end.
    { repeat (apply keeps_bind; [apply _|apply metric_reads_only|intros ?]).
      apply keeps_ret, _. }
    specialize (HR w4). rewrite E in HR. destruct HR as [Hh [rest Hrest]].
    simpl in Hh, Hrest. exists (Ok (r_ref y_pred)).
    assert (Hne : y_pred <> X).
    { intros Heq. rewrite Heq, H3, lookup_insert_eq in Hf4. discriminate. }
    split; [done|]. split.
    { rewrite Hcols. intros Hin. apply list_elem_of_filter in Hin as [Hin _]. done. }
    split; [done|]. split; [done|]. split.
    { rewrite Hrest, T4, <- app_assoc. apply Hidx. }
    split.
    { rewrite Hh, H4, lookup_insert_ne by done. rewrite H3. apply lookup_insert_eq. }
    exists y_pred. split; [done|]. split.
    { rewrite H3 in Hf4. rewrite lookup_insert_ne in Hf4 by done.
      by eapply lookup_weaken_None. }
    split; [done|]. rewrite Hh, H4. apply lookup_insert_eq.
  - injection E as <- <-. exists (Err ex).
    split; [done|]. split.
    { rewrite Hcols. intros Hin. apply list_elem_of_filter in Hin as [Hin _]. done. }
    split; [done|]. split; [done|]. split.
    { simpl. rewrite T3. pose proof (Hidx (c_predict m X, Err ex) []) as Hi.
      by rewrite app_nil_r in Hi. }
    split; [|done]. rewrite heap_log, H3. apply lookup_insert_eq.
Qed.

(** X7. [test_model] makes its calls in one order: the lookup of
    'target', the drop of 'target', [predict] on the frame the drop returned,
    then [roc_auc_score], [accuracy_score], [recall_score] and [f1_score],
    each on the labels the lookup returned and the predictions [predict]
    returned.  Its history is this list when it returns, with the four
    values of the mapping as the metrics' results; when it raises, it is
    this list cut at the call that raised, so that a call that raises
    prevents all later ones.  It makes between one and seven calls and
    prints nothing. *)
Theorem test_model_calls_in_order m test_ds w :
  exists y X y_pred auc acc rec f1 new,
    trace (test_model m test_ds w).2 = trace w ++ new
    /\ stdout (test_model m test_ds w).2 = stdout w
    /\ (1 <= length new <= 7)%nat
    /\ ((test_model m test_ds w).1
        = Ok [("AUC", auc); ("Accuracy", acc); ("Recall", rec); ("F1", f1)]
        /\ new = [ (c_getitem test_ds "target", Ok (r_ref y));
                   (c_drop test_ds ["target"], Ok (r_ref X));
                   (c_predict m X, Ok (r_ref y_pred));
                   (c_roc_auc_score y y_pred, Ok (r_value auc));
                   (c_accuracy_score y y_pred, Ok (r_value acc));
                   (c_recall_score y y_pred, Ok (r_value rec));
                   (c_f1_score y y_pred, Ok (r_value f1)) ]
        \/ exists ex k c r0,
             (test_model m test_ds w).1 = Err ex
             /\ [ (c_getitem test_ds "target", Ok (r_ref y));
                  (c_drop test_ds ["target"], Ok (r_ref X));
                  (c_predict m X, Ok (r_ref y_pred));
                  (c_roc_auc_score y y_pred, Ok (r_value auc));
                  (c_accuracy_score y y_pred, Ok (r_value acc));
                  (c_recall_score y y_pred, Ok (r_value rec));
                  (c_f1_score y y_pred, Ok (r_value f1)) ] !! k = Some (c, r0)
             /\ new = take k [ (c_getitem test_ds "target", Ok (r_ref y));
                               (c_drop test_ds ["target"], Ok (r_ref X));
                               (c_predict m X, Ok (r_ref y_pred));
                               (c_roc_auc_score y y_pred, Ok (r_value auc));
                               (c_accuracy_score y y_pred, Ok (r_value acc));
                               (c_recall_score y y_pred, Ok (r_value rec));
                               (c_f1_score y y_pred, Ok (r_value f1)) ]
                      ++ [(c, Err ex)]).
Proof.
  destruct (test_model_history m test_ds w)
    as (y & X & y_pred & auc & acc & rec & f1 & new & Ht & Ho & _ & Hr).
  exists y, X, y_pred, auc, acc, rec, f1, new.
  split; [done|]. split; [done|].
  unfold test_model_script, local_metrics_dict in Hr.
  destruct (test_model m test_ds w) as [[lm|ex] w']; cbn [fst snd] in *.
  - destruct Hr as [-> ->]. split; [simpl; lia|]. by left.
  - destruct Hr as (k & c & r0 & Hk & ->). split.
    + pose proof (lookup_lt_Some _ _ _ Hk) as Hlen. simpl in Hlen.
      rewrite length_app, length_take. simpl. lia.
    + right. by exists ex, k, c, r0.
Qed.

(** X8. A dataset too small to split stops the run before anything is
    sent to the service.  When the workspace loads and the file at
    [DATASET_PATH] parses to a dataframe with fewer than four rows, the run
    ends in the [ValueError] of [train_test_split]: it makes five calls, the
    last being the split, prints only the workspace line, and leaves the
    outside as [read_csv] left it, so that no configuration, experiment or
    job is created. *)
Theorem small_dataset_stops_before_any_job s e ws e1 d e2 :
  Workspace_from_config "../notebooks-settings/config.json" e = (Ok ws, e1) ->
  read_csv DATASET_PATH e1 = (Ok d, e2) ->
  (length (rows d) < 4)%nat ->
  exists df,
    (run_all s e).1 = Err (ValueError "the resulting train set will be empty")
    /\ trace (run_all s e).2
       = [ (c_filterwarnings "ignore", Ok r_None);
           (c_Workspace_from_config "../notebooks-settings/config.json", Ok (r_workspace ws));
           print_entry (workspace_line ws);
           (c_read_csv DATASET_PATH, Ok (r_ref df));
           (c_train_test_split df SPLIT_PERCENTAGE (Some SPLIT_SEED),
              Err (ValueError "the resulting train set will be empty")) ]
    /\ stdout (run_all s e).2 = [workspace_line ws]
    /\ outside (run_all s e).2 = e2
    /\ heap (run_all s e).2 = {[ df := ODataFrame d ]}.
Proof.
  intros Hws Hcsv Hn.
  destruct (run_all s e) as [res w'] eqn:E. unfold run_all, notebook in E.
  rewrite bind_run in E. cbn [invoke] in E. cbv beta iota zeta in E.
  rewrite bind_run in E. unfold invoke at 1, outside_op at 1 in E.
  cbn [outside log set_outside] in E. rewrite Hws in E. cbv beta iota zeta in E.
  rewrite bind_run, print_run in E. cbv beta iota in E.
  rewrite bind_run in E. unfold pd_read_csv at 1, invoke at 1, outside_op at 1 in E.
  cbn [outside log set_outside write] in E. rewrite Hcsv in E. cbv beta iota zeta in E.
  match type of E with context [alloc _ ?w0] => set (w3 := w0) in E end.
  assert (H3 : heap w3 = ∅) by reflexivity.
  assert (T3 : trace w3
               = [ (c_filterwarnings "ignore", Ok r_None);
                   (c_Workspace_from_config "../notebooks-settings/config.json",
                      Ok (r_workspace ws));
                   print_entry (workspace_line ws) ]) by reflexivity.
  assert (S3 : stdout w3 = [workspace_line ws]) by reflexivity.
  assert (O3 : outside w3 = e2) by reflexivity.
  clearbody w3.
  pose proof (alloc_heap (ODataFrame d) w3) as H4.
  assert (T4 : trace (alloc (ODataFrame d) w3).2 = trace w3) by reflexivity.
  assert (S4 : stdout (alloc (ODataFrame d) w3).2 = stdout w3) by reflexivity.
  assert (O4 : outside (alloc (ODataFrame d) w3).2 = outside w3) by reflexivity.
  destruct (alloc (ODataFrame d) w3) as [df w4]. cbn [fst snd] in *.
  cbv beta iota in E. cbn [result_map] in E.
  assert (Hdf : heap (log (c_read_csv DATASET_PATH, Ok (r_ref df)) w4) !! df
                = Some (ODataFrame d)).
  { rewrite heap_log, H4. apply lookup_insert_eq. }
  rewrite bind_run, (train_test_split_run _ _ _ _ _ Hdf) in E.
  unfold split_frames in E. rewrite validate_seven_tenths in E.
  destruct (decide (4 <= length (rows d))%nat) as [Hge|_]; [lia|].
  cbv beta iota in E. injection E as <- <-. exists df.
  split; [done|]. split; [simpl; by rewrite T4, T3|].
  split; [simpl; by rewrite S4, S3|]. split; [simpl; by rewrite O4, O3|].
  simpl. by rewrite H4, H3, insert_empty.
Qed.

(** *** Every run reaches its steps *)

#[local] Instance grows_preorder : PreOrder grows.
Proof.
  split.
  - intros w. exists []. by rewrite app_nil_r.
  - intros w1 w2 w3 [r1 T1] [r2 T2]. exists (r1 ++ r2). by rewrite T2, T1, app_assoc.
Qed.

Lemma adds_grows {A} (m : M A) c ret : adds m c ret -> keeps grows m.
Proof. intros H w. destruct (H w) as [Ht _]. by eexists. Qed.

Lemma test_model_grows m l : keeps grows (test_model m l).
Proof.
  intros w. destruct (test_model_history m l w)
    as (y & X & y_pred & auc & acc & rec & f1 & new & Ht & _). by exists new.
Qed.

Lemma print_metrics_grows brm lm : keeps grows (print_metrics brm lm).
Proof.
  unfold print_metrics.
  apply keeps_bind; [apply _|eapply adds_grows, print_adds|intros _].
  apply keeps_bind; [apply _| |intros _].
  { apply keeps_for_each; [apply _|]. intros k _.
    apply keeps_bind; [apply _|intros w; reflexivity|intros v].
    eapply adds_grows, print_adds. }
  apply keeps_bind; [apply _|eapply adds_grows, print_adds|intros _].
  apply keeps_for_each; [apply _|]. intros k _.
  apply keeps_bind; [apply _|intros w; reflexivity|intros v].
  eapply adds_grows, print_adds.
Qed.

Lemma invoke_outside_run {A} c (ret : A -> retval) (f : ext -> result A * ext) w :
  invoke c ret (outside_op f) w
  = ((f (outside w)).1,
     log (c, result_map ret (f (outside w)).1) (set_outside (f (outside w)).2 w)).
Proof. unfold invoke, outside_op. by destruct (f (outside w)). Qed.

(** A step of the script is reached by every run that no earlier call
    stopped: the run's history then agrees with the script before that
    step and has the step's call at its place. *)
Lemma run_all_reaches s e :
  exists g y X y_pred auc acc rec f1,
    forall n c r0,
      script g y X y_pred auc acc rec f1 !! n = Some (c, r0) ->
      ((forall j, (j < n)%nat ->
          trace (run_all s e).2 !! j = script g y X y_pred auc acc rec f1 !! j)
       /\ exists r, trace (run_all s e).2 !! n = Some (c, r))
      \/ exists k c' ex,
           (k < n)%nat
           /\ trace (run_all s e).2 !! k = Some (c', Err ex)
           /\ length (trace (run_all s e).2) = S k
           /\ (run_all s e).1 = Err ex.
Proof.
  destruct (run_all_shape s e)
    as (g & y & X & y_pred & auc & acc & rec & f1 & k & tail & Htr & _ & Hcase).
  exists g, y, X, y_pred, auc, acc, rec, f1.
  set (scr := script g y X y_pred auc acc rec f1) in *.
  intros n c r0 Hn. pose proof (lookup_lt_Some _ _ _ Hn) as Hlen.
  destruct Hcase as [(_ & -> & Hk & _)|(ex & c0 & r1 & Hres & Hk & _ & ->)].
  - left. rewrite Htr, app_nil_r, take_ge by done. split; [done|]. by exists r0.
  - pose proof (lookup_lt_Some _ _ _ Hk) as Hlenk.
    assert (Hlk : length (take k scr) = k) by (rewrite length_take; lia).
    destruct (decide (k < n)%nat) as [Hlt|Hge].
    + right. exists k, c0, ex. split; [done|]. split.
      { rewrite Htr, lookup_app_r by lia. by rewrite Hlk, Nat.sub_diag. }
      split; [|done]. rewrite Htr, length_app, Hlk. simpl. lia.
    + left. split.
      { intros j Hj. rewrite Htr, lookup_app_l by lia. apply lookup_take_lt. lia. }
      destruct (decide (n = k)) as [->|Hne].
      * rewrite Hn in Hk. injection Hk as <- <-. exists (Err ex).
        rewrite Htr, lookup_app_r by lia. by rewrite Hlk, Nat.sub_diag.
      * exists r0. rewrite Htr, lookup_app_l by lia. rewrite lookup_take_lt by lia. done.
Qed.

(** When the workspace loads and the dataset has at least four rows, the
    run goes through the split and calls [AutoMLConfig] on the two frames
    the split returned. *)
Lemma run_all_builds_config s e ws e1 d e2 :
  Workspace_from_config "../notebooks-settings/config.json" e = (Ok ws, e1) ->
  read_csv DATASET_PATH e1 = (Ok d, e2) ->
  (4 <= length (rows d))%nat ->
  exists df train_ds test_ds rest,
    trace (run_all s e).2
    = [ (c_filterwarnings "ignore", Ok r_None);
        (c_Workspace_from_config "../notebooks-settings/config.json", Ok (r_workspace ws));
        print_entry (workspace_line ws);
        (c_read_csv DATASET_PATH, Ok (r_ref df));
        (c_train_test_split df SPLIT_PERCENTAGE (Some SPLIT_SEED),
           Ok (r_refs train_ds test_ds));
        (c_AutoMLConfig (automl_config train_ds test_ds),
           result_map (fun _ : unit => r_None)
             (AutoMLConfig_init (automl_config train_ds test_ds) e2).1) ] ++ rest.
Proof.
  intros Hws Hcsv Hn.
  destruct (run_all s e) as [res w'] eqn:E. unfold run_all, notebook in E.
  rewrite bind_run in E. cbn [invoke] in E. cbv beta iota zeta in E.
  rewrite bind_run in E. unfold invoke at 1, outside_op at 1 in E.
  cbn [outside log set_outside] in E. rewrite Hws in E. cbv beta iota zeta in E.
  rewrite bind_run, print_run in E. cbv beta iota in E.
  rewrite bind_run in E. unfold pd_read_csv at 1, invoke at 1, outside_op at 1 in E.
  cbn [outside log set_outside write] in E. rewrite Hcsv in E. cbv beta iota zeta in E.
  match type of E with context [alloc _ ?w0] => set (w3 := w0) in E end.
  assert (T3 : trace w3
               = [ (c_filterwarnings "ignore", Ok r_None);
                   (c_Workspace_from_config "../notebooks-settings/config.json",
                      Ok (r_workspace ws));
                   print_entry (workspace_line ws) ]) by reflexivity.
  assert (O3 : outside w3 = e2) by reflexivity.
  clearbody w3.
  pose proof (alloc_heap (ODataFrame d) w3) as H4.
  assert (T4 : trace (alloc (ODataFrame d) w3).2 = trace w3) by reflexivity.
  assert (O4 : outside (alloc (ODataFrame d) w3).2 = outside w3) by reflexivity.
  destruct (alloc (ODataFrame d) w3) as [df w4]. cbn [fst snd] in *.
  cbv beta iota in E. cbn [result_map] in E.
  assert (Hdf : heap (log (c_read_csv DATASET_PATH, Ok (r_ref df)) w4) !! df
                = Some (ODataFrame d)).
  { rewrite heap_log, H4. apply lookup_insert_eq. }
  rewrite bind_run, (train_test_split_run _ _ _ _ _ Hdf) in E.
  unfold split_frames in E. rewrite validate_seven_tenths in E.
  destruct (decide (4 <= length (rows d))%nat) as [_|Hlt]; [|lia].
  cbv beta iota zeta in E. cbn [fst snd] in E.
  match type of E with context [log (c_train_test_split _ _ _, Ok (r_refs ?a ?b)) ?w0] =>
    set (train_ds := a) in *; set (test_ds := b) in *;
    set (w5 := log (c_train_test_split df SPLIT_PERCENTAGE (Some SPLIT_SEED),
                    Ok (r_refs train_ds test_ds)) w0) in *
  end.
  assert (T5 : trace w5
               = (trace w4 ++ [(c_read_csv DATASET_PATH, Ok (r_ref df))])
                 ++ [(c_train_test_split df SPLIT_PERCENTAGE (Some SPLIT_SEED),
                      Ok (r_refs train_ds test_ds))]) by reflexivity.
  assert (O5 : outside w5 = outside w4) by reflexivity.
  clearbody w5 train_ds test_ds.
  rewrite T4, T3 in T5. rewrite O4, O3 in O5. simpl in T5.
  rewrite bind_run, invoke_outside_run, O5 in E.
  exists df, train_ds, test_ds.
  destruct (AutoMLConfig_init (automl_config train_ds test_ds) e2) as [[u|ex] e3];
    cbn [fst snd] in E |- *; cbv beta iota in E.
  - match type of E with
    | ?k ?w0 = _ => assert (HR : keeps grows k)
    end.
    { apply keeps_bind; [apply _|by eapply adds_grows, outside_call_adds|intros exp].
      apply keeps_bind; [apply _|eapply adds_grows, submit_adds|intros run].
      apply keeps_bind; [apply _|by eapply adds_grows, outside_call_adds|intros _].
      apply keeps_bind; [apply _|by eapply adds_grows, outside_call_adds|intros _].
      apply keeps_bind;
        [apply _|by eapply adds_grows, outside_call_adds|intros [best_run fitted_model]].
      apply keeps_bind; [apply _|by eapply adds_grows, outside_call_adds|intros brm].
      apply keeps_bind; [apply _|apply test_model_grows|intros lm].
      apply keeps_bind; [apply _|apply print_metrics_grows|intros _].
      apply keeps_ret, _. }
    match type of E with ?k ?w0 = _ => specialize (HR w0) end.
    rewrite E in HR. destruct HR as [rest Hrest]. exists rest.
    cbn [snd] in Hrest |- *. rewrite Hrest. simpl. by rewrite T5.
  - injection E as <- <-. exists []. simpl. by rewrite T5.
Qed.

(** *** The configuration and the data of the local metrics *)

(** C4. The program constructs the configuration, and every configuration
    it constructs is the specified one.  Every [AutoMLConfig] call of a run
    has [task='classification'], [iterations=3],
    [max_concurrent_iterations=3], [primary_metric='AUC_weighted'] and
    [label_column_name='target'], with the two frames returned by
    [train_test_split] as training data and as validation data, in this
    order; a run that completes has constructed it, and it is the value of
    [automl_config].  The call is made: in every run either one of the five
    calls before it raised and ended the run, or the sixth call is
    [AutoMLConfig] on the two frames the split returned; and whenever the
    workspace loads and the dataset parses to at least four rows, the
    sixth call is [AutoMLConfig] with this configuration, with the outcome
    of the constructor of the SDK. *)
Theorem automl_config_as_specified s e :
  (forall i cfg r0,
     trace (run_all s e).2 !! i = Some (c_AutoMLConfig cfg, r0) ->
     task cfg = "classification"
     /\ iterations cfg = 3%Z
     /\ max_concurrent_iterations cfg = 3%Z
     /\ primary_metric cfg = "AUC_weighted"
     /\ label_column_name cfg = "target"
     /\ exists j df, (j < i)%nat /\
          trace (run_all s e).2 !! j
          = Some (c_train_test_split df SPLIT_PERCENTAGE (Some SPLIT_SEED),
                  Ok (r_refs (training_data cfg) (validation_data cfg))))
  /\ (forall g, (run_all s e).1 = Ok g ->
        (c_AutoMLConfig (g_automl_config g), Ok r_None) ∈ trace (run_all s e).2
        /\ training_data (g_automl_config g) = g_train_ds g
        /\ validation_data (g_automl_config g) = g_test_ds g)
  /\ ((exists k c ex,
         (k < 5)%nat
         /\ trace (run_all s e).2 !! k = Some (c, Err ex)
         /\ length (trace (run_all s e).2) = S k
         /\ (run_all s e).1 = Err ex)
      \/ exists df train_ds test_ds r,
           trace (run_all s e).2 !! 4%nat
           = Some (c_train_test_split df SPLIT_PERCENTAGE (Some SPLIT_SEED),
                   Ok (r_refs train_ds test_ds))
           /\ trace (run_all s e).2 !! 5%nat
              = Some (c_AutoMLConfig (automl_config train_ds test_ds), r)
           /\ task (automl_config train_ds test_ds) = "classification"
           /\ iterations (automl_config train_ds test_ds) = 3%Z
           /\ max_concurrent_iterations (automl_config train_ds test_ds) = 3%Z
           /\ primary_metric (automl_config train_ds test_ds) = "AUC_weighted"
           /\ label_column_name (automl_config train_ds test_ds) = "target"
           /\ training_data (automl_config train_ds test_ds) = train_ds
           /\ validation_data (automl_config train_ds test_ds) = test_ds)
  /\ (forall ws e1 d e2,
        Workspace_from_config "../notebooks-settings/config.json" e = (Ok ws, e1) ->
        read_csv DATASET_PATH e1 = (Ok d, e2) ->
        (4 <= length (rows d))%nat ->
        exists df train_ds test_ds,
          trace (run_all s e).2 !! 3%nat = Some (c_read_csv DATASET_PATH, Ok (r_ref df))
          /\ trace (run_all s e).2 !! 4%nat
             = Some (c_train_test_split df SPLIT_PERCENTAGE (Some SPLIT_SEED),
                     Ok (r_refs train_ds test_ds))
          /\ trace (run_all s e).2 !! 5%nat
             = Some (c_AutoMLConfig (automl_config train_ds test_ds),
                     result_map (fun _ : unit => r_None)
                       (AutoMLConfig_init (automl_config train_ds test_ds) e2).1)).
Proof.
  split; [|split; [|split]].
  - destruct (run_all_lookup s e)
      as (g & y & X & y_pred & auc & acc & rec & f1 & _ & Hlook).
    intros i cfg r0 Hi. destruct (Hlook _ _ _ Hi) as ([r1 Hs] & Hbefore & _).
    apply script_AutoMLConfig in Hs as [-> ->].
    do 5 (split; [reflexivity|]). exists 4%nat, (g_df g). split; [lia|].
    by rewrite Hbefore by lia.
  - destruct (run_all_lookup s e)
      as (g & y & X & y_pred & auc & acc & rec & f1 & Hdone & _).
    intros g' Hg. destruct (Hdone _ Hg) as (-> & Htr & Hcfg & _).
    rewrite Htr, Hcfg. split; [|done].
    apply list_elem_of_lookup. by exists 5%nat.
  - destruct (run_all_reaches s e)
      as (g & y & X & y_pred & auc & acc & rec & f1 & Hreach).
    destruct (Hreach 5%nat _ _ eq_refl) as [[Hbefore [r Hr]]|(k & c & ex & Hk & Hrest)].
    + right. exists (g_df g), (g_train_ds g), (g_test_ds g), r.
      split; [by rewrite Hbefore by lia|]. split; [done|]. by repeat split.
    + left. by exists k, c, ex.
  - intros ws e1 d e2 Hws Hcsv Hn.
    destruct (run_all_builds_config s e ws e1 d e2 Hws Hcsv Hn)
      as (df & train_ds & test_ds & rest & Htr).
    exists df, train_ds, test_ds. by rewrite Htr.
Qed.

(** C10. The dataframe on which [test_model] computes the local metrics
    is the very object passed as [validation_data]: the receiver of the
    lookup made by [test_model] is the [validation_data] of the
    configuration constructed before, which is the test frame returned by
    [train_test_split].  The call is made: in every run either some call
    raised and ended the run, or [test_model] made its lookup on that very
    object.  In a run that completes, the dataset frame, read from
    [DATASET_PATH], and the two frames the split made of it still hold at
    the end what they held, and the local metrics are the outcome of
    [test_model] on the content of the validation frame: they are computed
    on the validation split, not on other data. *)
Theorem local_metrics_on_validation_data s e :
  (forall i l k r1,
     trace (run_all s e).2 !! i = Some (c_getitem l k, r1) ->
     exists j j' cfg df train,
       (j < j' < i)%nat
       /\ trace (run_all s e).2 !! j
          = Some (c_train_test_split df SPLIT_PERCENTAGE (Some SPLIT_SEED),
                  Ok (r_refs train l))
       /\ trace (run_all s e).2 !! j' = Some (c_AutoMLConfig cfg, Ok r_None)
       /\ validation_data cfg = l)
  /\ (forall g, (run_all s e).1 = Ok g ->
        validation_data (g_automl_config g) = g_test_ds g
        /\ exists y, (c_getitem (g_test_ds g) "target", Ok (r_ref y))
                     ∈ trace (run_all s e).2)
  /\ (forall g w, run_all s e = (Ok g, w) ->
        exists d d_train d_test,
          trace w !! 3%nat = Some (c_read_csv DATASET_PATH, Ok (r_ref (g_df g)))
          /\ trace w !! 4%nat
             = Some (c_train_test_split (g_df g) SPLIT_PERCENTAGE (Some SPLIT_SEED),
                     Ok (r_refs (training_data (g_automl_config g))
                                (validation_data (g_automl_config g))))
          /\ heap w !! g_df g = Some (ODataFrame d)
          /\ split_frames d SPLIT_PERCENTAGE SPLIT_SEED = Ok (d_train, d_test)
          /\ heap w !! training_data (g_automl_config g) = Some (ODataFrame d_train)
          /\ heap w !! validation_data (g_automl_config g) = Some (ODataFrame d_test)
          /\ test_model_outcome (g_fitted_model g) d_test = Ok (g_local_metrics g))
  /\ ((exists k c ex,
         trace (run_all s e).2 !! k = Some (c, Err ex)
         /\ length (trace (run_all s e).2) = S k
         /\ (run_all s e).1 = Err ex
         /\ forall i l key r, trace (run_all s e).2 !! i <> Some (c_getitem l key, r))
      \/ exists i df train_ds test_ds r,
           (5 < i)%nat
           /\ trace (run_all s e).2 !! 4%nat
              = Some (c_train_test_split df SPLIT_PERCENTAGE (Some SPLIT_SEED),
                      Ok (r_refs train_ds test_ds))
           /\ trace (run_all s e).2 !! 5%nat
              = Some (c_AutoMLConfig (automl_config train_ds test_ds), Ok r_None)
           /\ validation_data (automl_config train_ds test_ds) = test_ds
           /\ trace (run_all s e).2 !! i = Some (c_getitem test_ds "target", r)).
Proof.
  split; [|split; [|split]].
  - destruct (run_all_lookup s e)
      as (g & y & X & y_pred & auc & acc & rec & f1 & _ & Hlook).
    intros i l k r1 Hi. destruct (Hlook _ _ _ Hi) as ([r2 Hs] & Hbefore & _).
    apply script_getitem in Hs as (-> & -> & ->).
    exists 4%nat, 5%nat, (automl_config (g_train_ds g) (g_test_ds g)), (g_df g), (g_train_ds g).
    split; [lia|]. by rewrite !Hbefore by lia.
  - destruct (run_all_lookup s e)
      as (g & y & X & y_pred & auc & acc & rec & f1 & Hdone & _).
    intros g' Hg. destruct (Hdone _ Hg) as (-> & Htr & Hcfg & _).
    rewrite Htr, Hcfg. split; [done|]. exists y.
    apply list_elem_of_lookup. by exists 12%nat.
  - destruct (run_all_lookup s e)
      as (g & y & X & y_pred & auc & acc & rec & f1 & Hdone & _).
    intros g' w Hrun. rewrite Hrun in Hdone. cbn [fst snd] in Hdone.
    destruct (Hdone g' eq_refl) as (-> & Htr & Hcfg & _).
    destruct (run_all_frames s e g w Hrun)
      as (d & d_train & d_test & Hs & Hd & Htrn & Hte & Hlm).
    exists d, d_train, d_test. rewrite Hcfg, Htr. by repeat split.
  - destruct (run_all_reaches s e)
      as (g & y & X & y_pred & auc & acc & rec & f1 & Hreach).
    destruct (run_all_lookup s e)
      as (g0 & y0 & X0 & y_pred0 & auc0 & acc0 & rec0 & f10 & _ & Hlook).
    destruct (Hreach 12%nat _ _ eq_refl) as [[Hbefore [r Hr]]|(k & c & ex & Hk & Hat & Hlen & Hres)].
    + right. exists 12%nat, (g_df g), (g_train_ds g), (g_test_ds g), r.
      split; [lia|]. rewrite !Hbefore by lia. by repeat split.
    + left. exists k, c, ex. do 3 (split; [done|]).
      intros i l key r Hi. pose proof (lookup_lt_Some _ _ _ Hi) as Hlt.
      destruct (Hlook _ _ _ Hi) as ([r2 Hs] & _).
      apply script_getitem in Hs as (-> & _). lia.
Qed.

(** X3. The metrics that are printed first are asked of the run object
    that [get_output] returned as the best run, in the call right after
    it, and [get_output] was itself called on the run that [submit]
    returned; the model whose predictions are scored locally is the fitted
    model returned by that same [get_output] call, the only one of the run.
    These calls are made: in every run either some call raised and ended
    the run before any prediction, or [get_output] returned a best run and
    a model, [get_metrics] was then called on that best run and returned,
    and [predict] was called on that model. *)
Theorem best_run_and_model_come_from_get_output s e :
  (forall i best res,
     trace (run_all s e).2 !! i = Some (c_get_metrics best, res) ->
     exists j k run m exp cfg,
       i = S j /\ (k < j)%nat
       /\ trace (run_all s e).2 !! j = Some (c_get_output run, Ok (r_output best m))
       /\ trace (run_all s e).2 !! k = Some (c_submit exp cfg, Ok (r_run run)))
  /\ (forall i m X res,
        trace (run_all s e).2 !! i = Some (c_predict m X, res) ->
        exists j run best brm,
          (S j < i)%nat
          /\ trace (run_all s e).2 !! j = Some (c_get_output run, Ok (r_output best m))
          /\ trace (run_all s e).2 !! S j = Some (c_get_metrics best, Ok (r_dict brm)))
  /\ (forall j j' run run' r r',
        trace (run_all s e).2 !! j = Some (c_get_output run, r) ->
        trace (run_all s e).2 !! j' = Some (c_get_output run', r') ->
        j = j')
  /\ ((exists k c ex,
         trace (run_all s e).2 !! k = Some (c, Err ex)
         /\ length (trace (run_all s e).2) = S k
         /\ (run_all s e).1 = Err ex
         /\ forall i m X r, trace (run_all s e).2 !! i <> Some (c_predict m X, r))
      \/ exists i j run best m brm X r,
           (S j < i)%nat
           /\ trace (run_all s e).2 !! j = Some (c_get_output run, Ok (r_output best m))
           /\ trace (run_all s e).2 !! S j = Some (c_get_metrics best, Ok (r_dict brm))
           /\ trace (run_all s e).2 !! i = Some (c_predict m X, r)).
Proof.
  destruct (run_all_lookup s e)
    as (g & y & X & y_pred & auc & acc & rec & f1 & _ & Hlook).
  split; [|split; [|split]].
  - intros i best res Hi. destruct (Hlook _ _ _ Hi) as ([r0 Hs] & Hbefore & _).
    script_inv Hs. injection Hs as <- _.
    exists 10%nat, 7%nat, (g_automl_run g), (g_fitted_model g),
      (g_automl_experiment g), (automl_config (g_train_ds g) (g_test_ds g)).
    split; [done|]. split; [lia|]. by rewrite !Hbefore by lia.
  - intros i m X0 res Hi. destruct (Hlook _ _ _ Hi) as ([r0 Hs] & Hbefore & _).
    script_inv Hs. injection Hs as <- <- _.
    exists 10%nat, (g_automl_run g), (g_best_run g), (g_best_run_metrics g).
    split; [lia|]. by rewrite !Hbefore by lia.
  - intros j j' run run' r r' Hj Hj'.
    destruct (Hlook _ _ _ Hj) as ([r0 Hs] & _).
    destruct (Hlook _ _ _ Hj') as ([r0' Hs'] & _).
    apply script_get_output in Hs as [-> _]. by apply script_get_output in Hs' as [-> _].
  - destruct (run_all_reaches s e)
      as (g1 & y1 & X1 & y_pred1 & auc1 & acc1 & rec1 & f11 & Hreach).
    destruct (Hreach 14%nat _ _ eq_refl)
      as [[Hbefore [r Hr]]|(k & c & ex & Hk & Hat & Hlen & Hres)].
    + right. exists 14%nat, 10%nat, (g_automl_run g1), (g_best_run g1), (g_fitted_model g1),
        (g_best_run_metrics g1), X1, r.
      split; [lia|]. rewrite !Hbefore by lia. by repeat split.
    + left. exists k, c, ex. do 3 (split; [done|]).
      intros i m X0 r Hi. pose proof (lookup_lt_Some _ _ _ Hi) as Hlt.
      destruct (Hlook _ _ _ Hi) as ([r2 Hs] & _).
      script_inv Hs. lia.
Qed.

End Properties.

(** * The properties on the small concrete setting *)

Section Toy.
#[local] Existing Instances toy_builtins toy_rng toy_sklearn toy_outside.

Example toy_run_completes :
  (run_all toy_state toy_file).1 = Ok toy_globals.
Proof. vm_compute. reflexivity. Qed.

Lemma toy_has_target : "target" ∈ columns toy_df.
Proof. apply (bool_decide_unpack _). vm_compute. exact I. Defined.

Lemma toy_unlabelled_has_no_target : "target" ∉ columns toy_unlabelled.
Proof. apply (bool_decide_unpack _). vm_compute. exact I. Defined.

(** C1 on the five-row dataset: the four metrics of the toy library. *)
Lemma test_model_returns_metrics_witness :
  (test_model (ModelRef 0) 1%positive (toy_world toy_df 0)).1
  = Ok [("AUC", PInt 2); ("Accuracy", PInt 2); ("Recall", PInt 5); ("F1", PInt 6)].
Proof.
  destruct (test_model_returns_metrics (ModelRef 0) 1%positive (toy_world toy_df 0) toy_df)
    as (y & X & Hy & HX & _ & Hr).
  - vm_compute. reflexivity.
  - exact toy_has_target.
  - apply Hr. vm_compute in Hy, HX. injection Hy as <-. injection HX as <-.
    eexists _, _, _, _, _. repeat split; vm_compute; reflexivity.
Defined.

(** C1 as worded fails on a dataframe whose labels are all the same: the
    area under the curve is undefined, [roc_auc_score] raises, and so does
    [test_model]. *)
Lemma one_class_frame_returns_no_metrics :
  "target" ∈ columns toy_one_class
  /\ ~ returns_the_four_metrics (ModelRef 0) 1%positive (toy_world toy_one_class 0).
Proof.
  split.
  - apply (bool_decide_unpack _). vm_compute. exact I.
  - intros (auc & acc & rec & f1 & Hrun). vm_compute in Hrun. discriminate Hrun.
Qed.

(** C8 on the five-row dataset.  The toy estimator empties the frame it is
    given, and that frame is the new object 3, not the argument. *)
Lemma test_model_leaves_argument_unchanged_witness :
  heap (test_model (ModelRef 0) 1%positive (toy_world toy_df 0)).2 !! 1%positive
  = Some (ODataFrame toy_df)
  /\ heap (toy_world toy_df 0) ⊆ heap (test_model (ModelRef 0) 1%positive (toy_world toy_df 0)).2.
Proof.
  apply (test_model_leaves_argument_unchanged (ModelRef 0) 1%positive (toy_world toy_df 0) toy_df).
  vm_compute. reflexivity.
Defined.

Example toy_predict_empties_its_argument :
  heap (test_model (ModelRef 0) 1%positive (toy_world toy_df 0)).2 !! 3%positive
  = Some (ODataFrame {| columns := ["age"]; rows := [] |}).
Proof. vm_compute. reflexivity. Qed.

(** C9 on a dataframe without the label column. *)
Lemma test_model_needs_target_column_witness :
  (test_model (ModelRef 0) 1%positive (toy_world toy_unlabelled 0)).1
  = Err (KeyError "target").
Proof.
  apply (test_model_needs_target_column (ModelRef 0) 1%positive
           (toy_world toy_unlabelled 0) toy_unlabelled).
  - vm_compute. reflexivity.
  - exact toy_unlabelled_has_no_target.
Defined.

(** C2 (amended) on the five-row dataset: four rows to test, one to train. *)
Lemma train_test_split_partitions_witness :
  exists train test ind_train ind_test,
    (train_test_split 1%positive SPLIT_PERCENTAGE (Some SPLIT_SEED) (toy_world toy_df 0)).1
    = Ok (train, test)
    /\ ind_test ++ ind_train ≡ₚ seq 0 5
    /\ length (rows (df_take toy_df ind_test)) = 4%nat
    /\ length (rows (df_take toy_df ind_train)) = 1%nat.
Proof.
  destruct (train_test_split_partitions 1%positive (toy_world toy_df 0) toy_df)
    as [_ Hsplit].
  - vm_compute. reflexivity.
  - destruct Hsplit as (train & test & ind_train & ind_test & H1 & _ & _ & _ & _ & _
                        & H2 & _ & _ & H3 & H4).
    + simpl. lia.
    + exists train, test, ind_train, ind_test. repeat split; assumption.
Defined.

(** C2 as worded fails on a three-row dataframe, where the call raises,
    and on the five-row dataframe, where the test frame gets four rows of
    five. *)
Lemma small_frames_are_not_split_in_exact_proportion :
  ~ splits_in_exact_proportion (toy_world toy_df3 0) 1%positive toy_df3
  /\ ~ splits_in_exact_proportion (toy_world toy_df 0) 1%positive toy_df.
Proof.
  split.
  - intros (train & test & w' & d_train & d_test & Hrun & _).
    vm_compute in Hrun. discriminate Hrun.
  - intros (train & test & w' & d_train & d_test & Hrun & Htr & Hte & _ & H7 & _).
    vm_compute in Hrun. injection Hrun as <- <- <-.
    vm_compute in Hte. injection Hte as <-. simpl in H7. lia.
Qed.

(** The heart-disease dataset has 303 rows: 213 go to test, 90 to train. *)
Example split_sizes_for_303_rows :
  validate_shuffle_split 303 SPLIT_PERCENTAGE = Ok (90%nat, 213%nat).
Proof. vm_compute. reflexivity. Qed.


(** Without a seed the split follows the global generator. *)
Example unseeded_split_depends_on_generator :
  split_contents (train_test_split 1%positive SPLIT_PERCENTAGE None (toy_world toy_df 0))
  <> split_contents (train_test_split 1%positive SPLIT_PERCENTAGE None (toy_world toy_df 1)).
Proof. vm_compute. discriminate. Qed.

(** C5 on the toy run: [get_output] is the eleventh call. *)
Lemma get_output_after_wait_for_completion_witness :
  exists j k exp cfg,
    (j < k < 10)%nat
    /\ trace (run_all toy_state toy_file).2 !! j = Some (c_submit exp cfg, Ok (r_run (RunRef 0)))
    /\ trace (run_all toy_state toy_file).2 !! k
       = Some (c_wait_for_completion (RunRef 0) true, Ok r_None).
Proof.
  apply (get_output_after_wait_for_completion toy_state toy_file 10 (RunRef 0)
           (Ok (r_output (RunRef 1) (ModelRef 0)))).
  vm_compute. reflexivity.
Defined.


(** C7 on a missing dataset file and on a dataframe without the label. *)
Example missing_file_stops_the_run :
  (run_all toy_state toy_no_file).1 = Err (Raised "FileNotFoundError" DATASET_PATH)
  /\ last (trace (run_all toy_state toy_no_file).2)
     = Some (c_read_csv DATASET_PATH, Err (Raised "FileNotFoundError" DATASET_PATH)).
Proof. vm_compute. split; reflexivity. Qed.

Example missing_label_stops_test_model :
  trace (test_model (ModelRef 0) 1%positive (toy_world toy_unlabelled 0)).2
  = [(c_getitem 1%positive "target", Err (KeyError "target"))].
Proof. vm_compute. reflexivity. Qed.

Example undefined_metric_stops_test_model :
  (test_model (ModelRef 0) 1%positive (toy_world toy_one_class 0)).1
  = Err (ValueError "Only one class present in y_true").
Proof. vm_compute. reflexivity. Qed.



(** X2 on the five-row dataset: the job of the toy service. *)
Lemma one_job_per_run_witness :
  exists ws df train_ds test_ds,
    g_automl_config toy_globals = automl_config train_ds test_ds
    /\ trace (run_all toy_state toy_file).2 !! 3%nat
       = Some (c_read_csv DATASET_PATH, Ok (r_ref df))
    /\ trace (run_all toy_state toy_file).2 !! 4%nat
       = Some (c_train_test_split df SPLIT_PERCENTAGE (Some SPLIT_SEED),
               Ok (r_refs train_ds test_ds))
    /\ trace (run_all toy_state toy_file).2 !! 6%nat
       = Some (c_Experiment ws "automl-classification", Ok (r_experiment (ExperimentRef 0))).
Proof.
  destruct (one_job_per_run toy_state toy_file 7 (ExperimentRef 0)
              (g_automl_config toy_globals) (Ok (r_run (RunRef 0))))
    as (_ & ws & df & train_ds & test_ds & Hcfg & _ & H3 & H4 & _ & H6).
  - vm_compute. reflexivity.
  - exists ws, df, train_ds, test_ds. repeat split; assumption.
Defined.

(** X4 on a run without the dataset file: only the workspace line. *)
Lemma failed_run_prints_no_metrics_witness :
  stdout (run_all toy_state toy_no_file).2 = []
  \/ exists ws,
       trace (run_all toy_state toy_no_file).2 !! 1%nat
       = Some (c_Workspace_from_config "../notebooks-settings/config.json",
               Ok (r_workspace ws))
       /\ stdout (run_all toy_state toy_no_file).2 = [workspace_line ws].
Proof.
  apply (failed_run_prints_no_metrics toy_state toy_no_file
           (Raised "FileNotFoundError" DATASET_PATH)).
  vm_compute. reflexivity.
Defined.

(** X5 on the five-row dataset: four rows validate, one trains. *)
Lemma completed_run_partitions_the_dataset_witness :
  exists d d_train d_test,
    heap (run_all toy_state toy_file).2 !! g_df toy_globals = Some (ODataFrame d)
    /\ heap (run_all toy_state toy_file).2 !! training_data (g_automl_config toy_globals)
       = Some (ODataFrame d_train)
    /\ heap (run_all toy_state toy_file).2 !! validation_data (g_automl_config toy_globals)
       = Some (ODataFrame d_test)
    /\ (4 <= length (rows d))%nat
    /\ columns d_train = columns d /\ columns d_test = columns d
    /\ rows d_test ++ rows d_train ≡ₚ rows d
    /\ length (rows d_test) = ((7 * length (rows d) + 9) / 10)%nat
    /\ length (rows d_train) = (length (rows d) - (7 * length (rows d) + 9) / 10)%nat.
Proof.
  apply (completed_run_partitions_the_dataset toy_state toy_file toy_globals
           (run_all toy_state toy_file).2).
  vm_compute. reflexivity.
Defined.

(** X6 on the five-row dataset. *)
Lemma predict_sees_no_label_witness :
  exists X dX r,
    df_drop toy_df ["target"] = Ok dX
    /\ ("target" ∉ columns dX)
    /\ trace (test_model (ModelRef 0) 1%positive (toy_world toy_df 0)).2 !! 2%nat
       = Some (c_predict (ModelRef 0) X, r)
    /\ heap (test_model (ModelRef 0) 1%positive (toy_world toy_df 0)).2 !! X
       = Some (predict (ModelRef 0) (ODataFrame dX)).2.
Proof.
  destruct (predict_sees_no_label (ModelRef 0) 1%positive (toy_world toy_df 0) toy_df)
    as (X & dX & r & Hd & Hn & _ & _ & Ht & Hh & _).
  - vm_compute. reflexivity.
  - exact toy_has_target.
  - exists X, dX, r. repeat split; assumption.
Defined.

(** X8 on a dataset of three rows. *)
Lemma small_dataset_stops_before_any_job_witness :
  exists df,
    (run_all toy_state (Some toy_df3 : @ext toy_outside)).1
    = Err (ValueError "the resulting train set will be empty")
    /\ length (trace (run_all toy_state (Some toy_df3 : @ext toy_outside)).2) = 5%nat
    /\ heap (run_all toy_state (Some toy_df3 : @ext toy_outside)).2
       = {[ df := ODataFrame toy_df3 ]}.
Proof.
  destruct (small_dataset_stops_before_any_job toy_state (Some toy_df3 : @ext toy_outside)
              (mkWorkspace "ws" "rg" "westeurope" "sub") (Some toy_df3 : @ext toy_outside)
              toy_df3 (Some toy_df3 : @ext toy_outside))
    as (df & Hr & Ht & _ & _ & Hh).
  - reflexivity.
  - reflexivity.
  - simpl. lia.
  - exists df. split; [assumption|]. split; [by rewrite Ht|assumption].
Defined.


(** C4 on the five-row dataset: the workspace loads, the file has five
    rows, and the sixth call constructs the configuration. *)
Lemma automl_config_as_specified_witness :
  exists df train_ds test_ds,
    trace (run_all toy_state toy_file).2 !! 3%nat
    = Some (c_read_csv DATASET_PATH, Ok (r_ref df))
    /\ trace (run_all toy_state toy_file).2 !! 4%nat
       = Some (c_train_test_split df SPLIT_PERCENTAGE (Some SPLIT_SEED),
               Ok (r_refs train_ds test_ds))
    /\ trace (run_all toy_state toy_file).2 !! 5%nat
       = Some (c_AutoMLConfig (automl_config train_ds test_ds), Ok r_None).
Proof.
  apply (proj2 (proj2 (proj2 (automl_config_as_specified toy_state toy_file)))
           (mkWorkspace "ws" "rg" "westeurope" "sub") toy_file toy_df toy_file).
  - reflexivity.
  - reflexivity.
  - simpl. lia.
Defined.

(** C10 on the five-row dataset: the local metrics are those of the four
    validation rows. *)
Lemma local_metrics_on_validation_data_witness :
  (exists d d_train d_test,
     heap (run_all toy_state toy_file).2 !! g_df toy_globals = Some (ODataFrame d)
     /\ split_frames d SPLIT_PERCENTAGE SPLIT_SEED = Ok (d_train, d_test)
     /\ heap (run_all toy_state toy_file).2 !! validation_data (g_automl_config toy_globals)
        = Some (ODataFrame d_test)
     /\ test_model_outcome (g_fitted_model toy_globals) d_test
        = Ok (g_local_metrics toy_globals))
  /\ exists i df train_ds test_ds r,
       trace (run_all toy_state toy_file).2 !! 4%nat
       = Some (c_train_test_split df SPLIT_PERCENTAGE (Some SPLIT_SEED),
               Ok (r_refs train_ds test_ds))
       /\ trace (run_all toy_state toy_file).2 !! 5%nat
          = Some (c_AutoMLConfig (automl_config train_ds test_ds), Ok r_None)
       /\ validation_data (automl_config train_ds test_ds) = test_ds
       /\ trace (run_all toy_state toy_file).2 !! i = Some (c_getitem test_ds "target", r).
Proof.
  split.
  - destruct (proj1 (proj2 (proj2 (local_metrics_on_validation_data toy_state toy_file)))
                toy_globals (run_all toy_state toy_file).2)
      as (d & d_train & d_test & _ & _ & Hd & Hs & _ & Hte & Hlm).
    + vm_compute. reflexivity.
    + exists d, d_train, d_test. repeat split; assumption.
  - destruct (proj2 (proj2 (proj2 (local_metrics_on_validation_data toy_state toy_file))))
      as [(k & c & ex & _ & _ & Hres & _)|(i & df & train_ds & test_ds & r & _ & H4 & H5 & Hv & Hi)].
    + vm_compute in Hres. discriminate Hres.
    + exists i, df, train_ds, test_ds, r. repeat split; assumption.
Defined.

(** X3 on the five-row dataset. *)
Lemma best_run_and_model_come_from_get_output_witness :
  (exists j run m,
     trace (run_all toy_state toy_file).2 !! j
     = Some (c_get_output run, Ok (r_output (RunRef 1) m)))
  /\ (exists j run best,
        trace (run_all toy_state toy_file).2 !! j
        = Some (c_get_output run, Ok (r_output best (ModelRef 0)))).
Proof.
  split.
  - destruct (proj1 (best_run_and_model_come_from_get_output toy_state toy_file) 11%nat
                (RunRef 1) (Ok (r_dict [("AUC_weighted", PInt 9); ("accuracy", PInt 8)])))
      as (j & k & run & m & exp & cfg & _ & _ & Hj & _).
    + vm_compute. reflexivity.
    + by exists j, run, m.
  - destruct (proj1 (proj2 (best_run_and_model_come_from_get_output toy_state toy_file))
                14%nat (ModelRef 0) 5%positive (Ok (r_ref 6%positive)))
      as (j & run & best & brm & _ & Hj & _).
    + vm_compute. reflexivity.
    + by exists j, run, best.
Defined.

End Toy.
